(* ===== verification/_CoqProject ===== *)
-Q . S2P
Prelude.v
PyStr.v
Ticker.v
Frame.v
TradePlan.v
Indicators.v
Loader.v
News.v
Cache.v
Format.v
App.v
