(* ===== verification/Prelude.v ===== *)
(** * IDX Stock Advisor: a verification development of [src/app.py]

    The program is one Python file, [src/app.py], a Streamlit dashboard
    for Indonesian (IDX) stocks.  Each user interaction reruns the script;
    when the "Analyze" button was pressed (lines 72-95) its parts are
    called in this order:

    - the ticker normalizer [normalize_ticker] (lines 10-14): trims and
      upper-cases the user's text and appends [".JK"] when it has no dot;
    - the data loader [load_data] (lines 16-26): asks yfinance for two
      years of daily bars, fails with a [ValueError] when nothing comes
      back, attaches five indicator columns computed by pandas_ta (EMA20,
      EMA50, EMA200, RSI14, ATR14) and drops every row with a missing
      value; the function is memoised by [st.cache_data(ttl=60)];
    - the trade-plan generator [trade_plan] (lines 28-60): a pure rule on
      the last row and on the trailing 60-row window (support, resistance)
      with two branches, uptrend (close above EMA50) and wait;
    - the news fetcher [get_news] (lines 62-66): builds a Google-News RSS
      URL from the ticker and returns the first [n] entries as
      title/link pairs;
    - the page (lines 68-95): shows the title and the input, and on the
      button press wires the four together, renders the plan with the
      [{:,.0f}] format and turns any exception into an error box with
      [str(e)].

    ** Library layout (one file per part, in dependency order)

    - [Prelude] (this file): the Python value model shared by all parts:
      the exceptions the code raises ([PyExc]) and a result type
      [PyResult] with its bind notation [let!] in [py_scope]; Python's
      two-argument [min]/[max] and pandas' [Series.min]/[Series.max] on
      rationals; pandas' [tail] and [iloc[-1]] on lists; the hint
      databases [idx]/[idx_rw] and the tactics that discharge comparisons
      ([qcase], [qsolve], [qmin_elim]) and concrete decisions
      ([decide_concrete]).
    - [PyStr] (Module [PyStr]): the [str] methods the program calls
      ([strip], [upper], the [in] test, [replace]) on ASCII strings.
    - [Ticker] (Module [Ticker]): [normalize_ticker]; theorem C4: the
      result is in normal form and the function is idempotent (the
      spec's examples are kept as documented examples).
    - [Frame]: the data frame: a provider bar ([Yf.Row]), the
      indicator-augmented row with missing values ([Raw.Row]), the
      complete row ([Frame.Bar]) and pandas' [dropna].
    - [Indicators]: the interface the program relies on from pandas_ta,
      a [Class] of the three indicator functions with their laws (the
      output is aligned with the input; nothing is defined during the
      warm-up window; an EMA value lies between the least and greatest
      input; an ATR value is not negative), and one executable instance
      ([TaLib], the TA-Lib formulas) that proves the laws and runs the
      examples.
    - [TradePlan] (Module [TradePlan]): [trade_plan] line by line; an
      abstract specification [plan_spec] (support and resistance are the
      extreme low and high of the window, the levels of the chosen
      branch) and the refinement theorem C1; the error path C2; the
      dependence on the window only C3; order relations between the
      plan's levels C7-C9, C11; the exact conditions under which the code
      does not order them, C12 (uptrend targets inverted when the
      resistance is below [entry + 1.5 * ATR]) and C13 (wait target
      below the entry when the range is narrower than 1%); the spec's
      worked uptrend example C14 (its wait example is kept as a
      documented example).
    - [Loader] (Module [Loader], a Section over the provider and the
      indicator interface): [load_data]; C16 the error path, C17 every
      loaded row is the provider's row with the indicators at its
      position, C18 the 199-row warm-up (a history shorter than 200 rows
      gives an empty table).  The composition with [TradePlan] through
      the indicator laws: C10 on sane provider prices every loaded table
      meets [trade_plan]'s precondition and the plan's levels are
      ordered; C21 the moving averages, and the uptrend entry, lie
      between the least and the greatest close.
    - [News] (Module [News], a Section over the feed parser):
      [get_news]; C20 the first [n] entries in feed order, C22 missing
      fields; C23 the query of a normalized ticker; C24 the URL is not
      encoded: each ['&'] typed by the user adds a query parameter.
    - [Cache] (Module [Cache]): [st.cache_data(ttl=60)] as an explicit
      state: a [gmap string Entry] from ticker to (stored time, table) and
      the log of provider calls; [cached_load_data] is the decorated
      call; the provider's answer depends on the time.  C25 hits, C26
      refinement of the uncached [load_data] up to a staleness below the
      TTL, with the invariants (each entry is what [load_data] returned
      at its stored time; no entry from the future), C27 errors are not
      cached, C28 one provider call within the TTL and the stale answer,
      C29 expiry.
    - [Format] (Module [Format]): [f"{x:,.0f}"]: round half to even,
      decimal digits, thousands grouping, sign; C15 every output has the
      shape [-?d{1,3}(,ddd)*]; C30 the round trip back to the integer,
      C31-C32 rounding, C33 every value in [[-1/2, 0)] is shown as "-0".
    - [App] (Module [App]): the page: [header] (page configuration,
      title, input), the Analyze button, [render], [analyze] (the button
      branch with its [try]/[except]), [run] (one script run, a step on
      the cache state producing the widget list) and [run_all] (a
      session of reruns).  C34 the short-history error shown to the
      user, C35 any exception of [load_data] shown alone, C36 the page
      depends on the input only through its normalized ticker, C37 the
      layout of a successful page, C38 over a session the provider is
      called at most once per button press, for that run's ticker, C5
      the cache entry of a ticker changes only in runs pressed for it
      (requests for different tickers are independent), C19 the cache's
      invariants hold over any session whose times do not go back, C6
      from any state a late enough press fetches the current table
      (liveness).

    ** Modelling choices, bounds and fuel

    - Python floats are modelled as exact rationals [Q]; the literals of
      the code (1.2, 1.5, 3, 0.995, 1.01, 0.985) are the rationals they
      denote.  Rounding of IEEE doubles is not modelled; every theorem on
      the plan is a statement about the exact arithmetic the code
      expresses.  A missing pandas value (NaN) is [None] in [option Q].
    - Strings are Rocq [string]s (bytes; the page's emoji are their UTF-8
      bytes).  Python's [strip] and [upper] are modelled on the ASCII
      range, where they remove the ASCII whitespace characters Python
      recognises and map [a-z] to [A-Z]; non-ASCII case mapping is out
      of scope.
    - Time is an integer number of seconds; the TTL is the code's 60.
    - The only fuel is in [Format.digits_rev]: [1 + log2 n] steps, at
      least the number of decimal digits of [n], so the digits are always
      complete (lemma [value_rev_digits], used by the round trip C30).
      Every other definition is structural.
    - The market-data provider (yfinance), the RSS parser (feedparser),
      the indicator library (pandas_ta) and Streamlit are not code of
      this repository: the first two are section variables ([history],
      [parse]), pandas_ta is an interface with an instance, and the cache
      decorator and the rerun loop are modelled from their documented
      behaviour.  Nothing is assumed as an axiom.
    - Not modelled: the rendering of widgets to HTML (the page is the
      list of widgets in the order the script writes them, with
      [st.set_page_config] as its first element); IEEE-754 rounding of
      the plan's arithmetic; the pandas_ta formulas beyond the laws of
      the [Indicators] class (the [TaLib] instance is an executable
      example, not a translation of pandas_ta); feedparser's parsing;
      and concurrent sessions sharing the cache (Streamlit serves one
      run at a time per session; the model is one sequence of runs).
*)

From Stdlib Require Export QArith Qminmax Lqa.
From stdpp Require Export base list sets strings.

(** Python exceptions raised by the modelled code: the [ValueError] of
    [load_data], pandas' [IndexError], and any other exception (of the
    market-data provider, say), by the text [str(e)] gives. *)
Inductive PyExc :=
| ValueError (msg : string)
| IndexError (msg : string)
| OtherError (msg : string).

#[export] Instance PyExc_eq_dec : EqDecision PyExc.
Proof. solve_decision. Qed.

(** [str(e)] for the exceptions above. *)
Definition str_exc (e : PyExc) : string :=
  match e with
  | ValueError m => m
  | IndexError m => m
  | OtherError m => m
  end.

(** A computation that returns a value or raises. *)
Inductive PyResult (A : Type) :=
| Ok (a : A)
| Err (e : PyExc).
Arguments Ok {A} a.
Arguments Err {A} e.

Declare Scope py_scope.
Delimit Scope py_scope with py.

Definition py_bind {A B} (c : PyResult A) (k : A -> PyResult B) : PyResult B :=
  match c with
  | Ok a => k a
  | Err e => Err e
  end.

(** [let! x := c in k]: run [c]; on success bind its value to [x] and
    continue with [k], otherwise propagate the exception. *)
Notation "'let!' x ':=' c 'in' k" := (py_bind c (fun x => k))
  (at level 10, x name, c at level 100, k at level 200) : py_scope.

Create HintDb idx.
Create Rewrite HintDb idx_rw.

(** ** Comparisons of Python floats *)

Local Open Scope Q_scope.

(** [x < y] on floats, as a boolean. *)
Definition Qltb (x y : Q) : bool := negb (Qle_bool y x).

(** Python's [min(a, b)]: the second argument only when it is strictly
    smaller (CPython keeps the first of equal items). *)
Definition py_min (a b : Q) : Q := if Qltb b a then b else a.

(** Python's [max(a, b)]: the second argument only when strictly larger. *)
Definition py_max (a b : Q) : Q := if Qltb a b then b else a.

(** ** pandas reductions on a non-empty column

    [Series.min()] and [Series.max()] on a column with no missing value;
    the column is given by its first element and the rest, so that it is
    never empty. *)
Definition series_min (x : Q) (xs : list Q) : Q := fold_left py_min xs x.
Definition series_max (x : Q) (xs : list Q) : Q := fold_left py_max xs x.

(** ** pandas row selection *)

(** [df.tail(n)]: the last [n] rows (all of them when there are fewer). *)
Definition tail {A} (n : nat) (l : list A) : list A := drop (length l - n) l.

(** [df.iloc[-1]]: the last row; pandas raises [IndexError] on an empty
    frame, which is [None] here. *)
Definition iloc_last {A} (l : list A) : option A := last l.

(** ** Decidable comparisons on rationals, for [decide] and [bool_decide] *)

#[export] Instance Q_eq_dec : EqDecision Q.
Proof. solve_decision. Defined.

#[export] Instance Qle_decision (a b : Q) : Decision (a <= b).
Proof.
  destruct (Qle_bool a b) eqn:E; [left; by apply Qle_bool_iff |].
  right. intros H. apply Qle_bool_iff in H. congruence.
Defined.

#[export] Instance Qlt_decision (a b : Q) : Decision (a < b).
Proof.
  destruct (Qle_bool b a) eqn:E.
  - right. apply Qle_bool_iff in E. lra.
  - left. apply Qnot_le_lt. intros H. apply Qle_bool_iff in H. congruence.
Defined.

#[export] Instance Qeq_decision (a b : Q) : Decision (a == b).
Proof.
  destruct (Qeq_bool a b) eqn:E; [left; by apply Qeq_bool_iff |].
  right. intros H. apply Qeq_bool_iff in H. congruence.
Defined.
(** * Lemmas *)

Lemma py_bind_Ok {A B} (a : A) (k : A -> PyResult B) : py_bind (Ok a) k = k a.
Proof. reflexivity. Qed.

Lemma py_bind_Err {A B} (e : PyExc) (k : A -> PyResult B) : py_bind (Err e) k = Err e.
Proof. reflexivity. Qed.

#[export] Hint Rewrite @py_bind_Ok @py_bind_Err : idx_rw.

Lemma Qltb_spec (x y : Q) : BoolSpec (x < y) (y <= x) (Qltb x y).
Proof.
  unfold Qltb. destruct (Qle_bool y x) eqn:E; constructor.
  - by apply Qle_bool_iff.
  - apply Qnot_le_lt. intros H. apply Qle_bool_iff in H. congruence.
Qed.

(** Case analysis on every [Qltb] test in the goal. *)
Ltac qcase :=
  repeat match goal with
  | |- context [Qltb ?x ?y] => destruct (Qltb_spec x y)
  | H : context [Qltb ?x ?y] |- _ => destruct (Qltb_spec x y)
  end.

Ltac qsolve := unfold py_min, py_max in *; qcase; lra.

Lemma py_min_le_l a b : py_min a b <= a.
Proof. qsolve. Qed.

Lemma py_min_le_r a b : py_min a b <= b.
Proof. qsolve. Qed.

Lemma py_min_glb a b c : c <= a -> c <= b -> c <= py_min a b.
Proof. qsolve. Qed.

Lemma py_min_cases a b : py_min a b = a \/ py_min a b = b.
Proof. unfold py_min. destruct (Qltb b a); auto. Qed.

Lemma py_max_ge_l a b : a <= py_max a b.
Proof. qsolve. Qed.

Lemma py_max_ge_r a b : b <= py_max a b.
Proof. qsolve. Qed.

Lemma py_max_lub a b c : a <= c -> b <= c -> py_max a b <= c.
Proof. qsolve. Qed.

Lemma py_max_cases a b : py_max a b = a \/ py_max a b = b.
Proof. unfold py_max. destruct (Qltb a b); auto. Qed.

#[export] Hint Resolve py_min_le_l py_min_le_r py_max_ge_l py_max_ge_r : idx.

(** Python's [min]/[max] agree with the mathematical [Qmin]/[Qmax]. *)
Lemma py_min_Qmin a b : py_min a b == Qmin a b.
Proof.
  unfold py_min. destruct (Qltb_spec b a); [rewrite Q.min_r | rewrite Q.min_l]; lra.
Qed.

Lemma py_max_Qmax a b : py_max a b == Qmax a b.
Proof.
  unfold py_max. destruct (Qltb_spec a b); [rewrite Q.max_r | rewrite Q.max_l]; lra.
Qed.

(** Eliminate [Qmin] from the goal and the hypotheses by cases. *)
Ltac qmin_elim :=
  repeat match goal with
  | |- context [Qmin ?x ?y] =>
      let H := fresh "Hmin" in
      destruct (Q.min_spec x y) as [[? H] | [? H]]; rewrite H in *; clear H
  | H0 : context [Qmin ?x ?y] |- _ =>
      let H := fresh "Hmin" in
      destruct (Q.min_spec x y) as [[? H] | [? H]]; rewrite H in H0; clear H
  end.

Section Fold.
Context (f : Q -> Q -> Q).

(** Every fold of a selecting operator returns one of its inputs. *)
Lemma fold_select x xs :
  (forall a b, f a b = a \/ f a b = b) -> fold_left f xs x ∈ x :: xs.
Proof.
  intros Hf. revert x. induction xs as [|y ys IH]; intros x; simpl.
  - set_solver.
  - specialize (IH (f x y)).
    destruct (Hf x y) as [E | E]; rewrite E in IH |- *;
      rewrite !elem_of_cons in IH; rewrite !elem_of_cons; tauto.
Qed.

(** A fold whose operator is below (resp. above) both arguments is below
    (resp. above) every input; [R] is [Qle] or its converse. *)
Lemma fold_bound (R : Q -> Q -> Prop) x xs :
  (forall a b c, R c a -> R a b -> R c b) -> (forall a, R a a) ->
  (forall a b, R (f a b) a /\ R (f a b) b) ->
  forall y, y ∈ x :: xs -> R (fold_left f xs x) y.
Proof.
  intros Htr Hrefl Hf. revert x. induction xs as [|z zs IH]; intros x y Hy; simpl.
  - apply list_elem_of_singleton in Hy. subst. apply Hrefl.
  - rewrite !elem_of_cons in Hy.
    destruct Hy as [-> | [-> | Hy]];
      [eapply Htr; [apply IH; left | apply Hf] ..
      | apply IH, elem_of_cons; by right].
Qed.
End Fold.

Lemma series_min_elem x xs : series_min x xs ∈ x :: xs.
Proof. apply fold_select, py_min_cases. Qed.

Lemma series_max_elem x xs : series_max x xs ∈ x :: xs.
Proof. apply fold_select, py_max_cases. Qed.

Lemma series_min_le x xs y : y ∈ x :: xs -> series_min x xs <= y.
Proof.
  apply (fold_bound py_min Qle); [intros; eapply Qle_trans; eauto | apply Qle_refl |].
  split; [apply py_min_le_l | apply py_min_le_r].
Qed.

Lemma series_max_ge x xs y : y ∈ x :: xs -> y <= series_max x xs.
Proof.
  apply (fold_bound py_max (fun a b => b <= a));
    [intros; eapply Qle_trans; eauto | apply Qle_refl |].
  split; [apply py_max_ge_l | apply py_max_ge_r].
Qed.

#[export] Hint Resolve series_min_elem series_max_elem : idx.

Lemma length_tail {A} n (l : list A) : length (tail n l) = Nat.min n (length l).
Proof. unfold tail. rewrite length_drop. lia. Qed.

Lemma tail_suffix {A} n (l : list A) : tail n l `suffix_of` l.
Proof. unfold tail. apply suffix_drop. Qed.

Lemma elem_of_tail {A} n (l : list A) x : x ∈ tail n l -> x ∈ l.
Proof. intros H. eapply elem_of_suffix; [exact H | apply tail_suffix]. Qed.

(** The last row belongs to every non-empty tail. *)
Lemma iloc_last_tail {A} (n : nat) (l : list A) x :
  (0 < n)%nat -> iloc_last l = Some x -> iloc_last (tail n l) = Some x.
Proof.
  intros Hn Hl. unfold iloc_last, tail in *.
  apply last_Some in Hl as [l' ->].
  rewrite length_app; simpl. rewrite drop_app_le; [| lia].
  by rewrite last_snoc.
Qed.

(** The last row is a row of the last [n > 0] rows. *)
Lemma iloc_last_elem_tail {A} (n : nat) (l : list A) x :
  (0 < n)%nat -> iloc_last l = Some x -> x ∈ tail n l.
Proof. intros Hn Hl. eapply last_Some_elem_of, (iloc_last_tail n); eauto. Qed.

(** Membership in a column [map f rows]. *)
Lemma elem_of_map_iff {A B} (f : A -> B) (l : list A) y :
  y ∈ map f l <-> exists x, y = f x /\ x ∈ l.
Proof.
  rewrite list_elem_of_In, in_map_iff.
  setoid_rewrite list_elem_of_In. naive_solver.
Qed.

Lemma iloc_last_None {A} (l : list A) : iloc_last l = None <-> l = [].
Proof. apply last_None. Qed.


(** Close a decidable goal on concrete values by evaluation. *)
Ltac decide_concrete := apply (bool_decide_unpack _); vm_compute; reflexivity.
