(* ===== verification/PyStr.v ===== *)
(** * Python [str] methods used by [src/app.py]

    [str.strip()], [str.upper()], the substring test [needle in hay] and
    [str.replace(old, new)], on ASCII strings.  [strip] removes the
    characters for which Python's [str.isspace] holds; in the ASCII range
    these are the codes 9-13, 28-31 and 32.  [upper] maps [a-z] to [A-Z]
    and leaves every other ASCII character alone. *)

From S2P Require Import Prelude.
From Stdlib Require Import Ascii String.

Module PyStr.

Local Open Scope string_scope.

(** Case analysis on the 256 characters, for facts about one character
    that hold by computation. *)
Ltac ascii_cases c := destruct c as [[] [] [] [] [] [] [] []]; reflexivity.

(** [c.isspace()] on an ASCII character. *)
Definition is_py_space (c : ascii) : bool :=
  let n := nat_of_ascii c in
  (Nat.leb 9 n && Nat.leb n 13) || (Nat.leb 28 n && Nat.leb n 32).

(** [c.upper()] on an ASCII character. *)
Definition upper_char (c : ascii) : ascii :=
  let n := nat_of_ascii c in
  if Nat.leb 97 n && Nat.leb n 122 then ascii_of_nat (n - 32) else c.

(** Map a character function over a string. *)
Fixpoint smap (f : ascii -> ascii) (s : string) : string :=
  match s with
  | EmptyString => EmptyString
  | String c s' => String (f c) (smap f s')
  end.

(** [s.upper()]. *)
Definition upper (s : string) : string := smap upper_char s.

(** [s.lstrip()]: drop the leading whitespace. *)
Fixpoint lstrip (s : string) : string :=
  match s with
  | EmptyString => EmptyString
  | String c s' => if is_py_space c then lstrip s' else s
  end.

(** [s.rstrip()]: drop the trailing whitespace.  A character survives
    unless it is whitespace and everything after it is stripped away. *)
Fixpoint rstrip (s : string) : string :=
  match s with
  | EmptyString => EmptyString
  | String c s' =>
      let r := rstrip s' in
      match r with
      | EmptyString => if is_py_space c then EmptyString else String c EmptyString
      | _ => String c r
      end
  end.

(** [s.strip()]. *)
Definition strip (s : string) : string := rstrip (lstrip s).

(** [needle in hay]: [needle] occurs at some position of [hay]. *)
Fixpoint py_in (needle hay : string) : bool :=
  prefix needle hay ||
  match hay with
  | EmptyString => false
  | String _ hay' => py_in needle hay'
  end.

(** [s.replace(old, new)] for a non-empty [old]: scan left to right; where
    [old] starts, emit [new] and skip the [length old] characters of the
    match, otherwise copy the character.  [skip] counts the characters of
    the current match still to be skipped. *)
Fixpoint replace_go (old new : string) (skip : nat) (s : string) : string :=
  match s with
  | EmptyString => EmptyString
  | String c s' =>
      match skip with
      | S k => replace_go old new k s'
      | O =>
          if prefix old s then new ++ replace_go old new (String.length old - 1)%nat s'
          else String c (replace_go old new 0 s')
      end
  end.

(** [s.replace("", new)] inserts [new] before every character and at the end. *)
Fixpoint replace_empty (new s : string) : string :=
  match s with
  | EmptyString => new
  | String c s' => new ++ String c (replace_empty new s')
  end.

Definition replace (old new s : string) : string :=
  match old with
  | EmptyString => replace_empty new s
  | _ => replace_go old new 0 s
  end.

Example replace_ex : replace ".JK" "" "BBCA.JK" = "BBCA".
Proof. reflexivity. Qed.

(** ** Character facts, by computation on the 256 characters *)

Lemma upper_char_space c : is_py_space (upper_char c) = is_py_space c.
Proof. ascii_cases c. Qed.

Lemma upper_char_idem c : upper_char (upper_char c) = upper_char c.
Proof. ascii_cases c. Qed.

Lemma upper_char_dot c : upper_char c = "."%char <-> c = "."%char.
Proof. split; [| intros ->; reflexivity]. destruct c as [[] [] [] [] [] [] [] []]; done. Qed.

(** ** strip *)

Lemma lstrip_head s c r : lstrip s = String c r -> is_py_space c = false.
Proof.
  induction s as [|c' s IH]; simpl; [done |].
  destruct (is_py_space c') eqn:E; [exact IH | intros [= -> _]; exact E].
Qed.

Lemma lstrip_nonspace s c : is_py_space c = false -> lstrip (String c s) = String c s.
Proof. simpl. by intros ->. Qed.

Lemma lstrip_idem s : lstrip (lstrip s) = lstrip s.
Proof.
  destruct (lstrip s) as [|c r] eqn:E; [done |].
  apply lstrip_nonspace. by eapply lstrip_head.
Qed.

(** [rstrip] keeps the first character of whatever it does not erase. *)
Lemma rstrip_head s c r : rstrip s = String c r -> exists s', s = String c s'.
Proof.
  destruct s as [|c' s']; simpl; [done |].
  destruct (rstrip s'); [destruct (is_py_space c') |]; intros [= -> _]; eauto.
Qed.

Lemma rstrip_cons c s : rstrip s <> EmptyString -> rstrip (String c s) = String c (rstrip s).
Proof. simpl. by destruct (rstrip s). Qed.

Lemma rstrip_idem s : rstrip (rstrip s) = rstrip s.
Proof.
  induction s as [|c s IH]; simpl; [done |].
  destruct (rstrip s) as [|c' r] eqn:E.
  - destruct (is_py_space c) eqn:Ec; simpl; [done | by rewrite Ec].
  - rewrite rstrip_cons, IH; [done | by rewrite IH].
Qed.

(** Appending a string that is not all whitespace commutes with [rstrip]. *)
Lemma rstrip_app a b : rstrip b <> EmptyString -> rstrip (a ++ b) = a ++ rstrip b.
Proof.
  intros Hb. induction a as [|c a IH]; simpl; [done |].
  rewrite IH. destruct a; simpl; [destruct (rstrip b); done | done].
Qed.

Lemma strip_idem s : strip (strip s) = strip s.
Proof.
  unfold strip. destruct (rstrip (lstrip s)) as [|c r] eqn:E; [done |].
  destruct (rstrip_head _ _ _ E) as [s' Hs'].
  pose proof (lstrip_head _ _ _ Hs') as Hc.
  rewrite lstrip_nonspace by exact Hc. rewrite <- E. apply rstrip_idem.
Qed.

(** A stripped string does not start with whitespace. *)
Lemma strip_head s c r : strip s = String c r -> is_py_space c = false.
Proof.
  unfold strip. intros E. destruct (rstrip_head _ _ _ E) as [s' Hs'].
  by eapply lstrip_head.
Qed.

(** A stripped string followed by a string that ends in a non-space and
    does not start with one is still stripped. *)
Lemma strip_app_stripped a b :
  strip a = a -> lstrip b = b -> rstrip b = b -> b <> EmptyString ->
  strip (a ++ b) = a ++ b.
Proof.
  intros Ha Hl Hr Hne. unfold strip.
  assert (lstrip (a ++ b) = a ++ b) as ->.
  { destruct a as [|c a']; [exact Hl |].
    apply lstrip_nonspace. by eapply strip_head. }
  rewrite rstrip_app; [by rewrite Hr | by rewrite Hr].
Qed.

(** ** upper *)

Lemma upper_idem s : upper (upper s) = upper s.
Proof. unfold upper. induction s as [|c s IH]; simpl; [done |]. by rewrite upper_char_idem, IH. Qed.

Lemma upper_app a b : upper (a ++ b) = upper a ++ upper b.
Proof. unfold upper. induction a as [|c a IH]; simpl; [done | by rewrite IH]. Qed.

Lemma lstrip_upper s : lstrip (upper s) = upper (lstrip s).
Proof.
  unfold upper. induction s as [|c s IH]; simpl; [done |].
  rewrite upper_char_space. by destruct (is_py_space c).
Qed.

Lemma rstrip_upper s : rstrip (upper s) = upper (rstrip s).
Proof.
  unfold upper. induction s as [|c s IH]; simpl; [done |]. rewrite IH.
  destruct (rstrip s); simpl; [| done].
  rewrite upper_char_space. by destruct (is_py_space c).
Qed.

Lemma strip_upper s : strip (upper s) = upper (strip s).
Proof. unfold strip. by rewrite lstrip_upper, rstrip_upper. Qed.

(** ** The substring test *)

Lemma py_in_app_r n a b : py_in n b = true -> py_in n (a ++ b) = true.
Proof.
  intros H. induction a as [|c a IH]; simpl; [exact H |].
  rewrite IH. apply orb_true_r.
Qed.

Lemma prefix_dot_upper c x y : prefix "." (String (upper_char c) x) = prefix "." (String c y).
Proof. destruct x, y; ascii_cases c. Qed.

Lemma py_in_dot_upper s : py_in "." (upper s) = py_in "." s.
Proof.
  unfold upper. induction s as [|c s IH]; [done |].
  change (prefix "." (String (upper_char c) (smap upper_char s)) || py_in "." (smap upper_char s)
          = prefix "." (String c s) || py_in "." s).
  by rewrite IH, (prefix_dot_upper c _ s).
Qed.

(** ** replace *)

Lemma prefix_cons a b s1 s2 :
  prefix (String a s1) (String b s2) = if ascii_dec a b then prefix s1 s2 else false.
Proof. reflexivity. Qed.

Lemma append_cons c s t : String c s ++ t = String c (s ++ t).
Proof. reflexivity. Qed.

Lemma replace_go_cons0 old new c s :
  replace_go old new 0 (String c s) =
  if prefix old (String c s) then new ++ replace_go old new (String.length old - 1)%nat s
  else String c (replace_go old new 0 s).
Proof. reflexivity. Qed.

Lemma prefix_nil s : prefix "" s = true.
Proof. by destruct s. Qed.

Lemma py_in_dot_cons c s :
  py_in "." (String c s) = false -> c <> "."%char /\ py_in "." s = false.
Proof.
  change (py_in "." (String c s)) with (prefix "." (String c s) || py_in "." s).
  rewrite prefix_cons. destruct (ascii_dec "." c); [by rewrite prefix_nil |].
  intros H. apply orb_false_elim in H as [_ H]. auto.
Qed.

(** Removing the suffix [".JK"] from a dot-free code followed by it gives
    the code back. *)
Lemma replace_suffix_no_dot s : py_in "." s = false -> replace ".JK" "" (s ++ ".JK") = s.
Proof.
  unfold replace. induction s as [|c s IH]; [done |].
  intros (Hc & Hs)%py_in_dot_cons. rewrite append_cons, replace_go_cons0.
  rewrite prefix_cons. destruct (ascii_dec "." c) as [E | _]; [by subst |].
  by rewrite IH.
Qed.

End PyStr.
