(* ===== verification/Ticker.v ===== *)
(** * The ticker normalizer, [normalize_ticker] (src/app.py, lines 8-14)

    [t.strip().upper()], then [DEFAULT_SUFFIX] appended when the result
    has no dot.  The theorem: the result is in normal form (stripped,
    upper case, with a dot) and the function is idempotent; a helper
    lemma shows that it leaves any normal form unchanged, and the spec's
    examples are checked as documented examples. *)

From S2P Require Import Prelude PyStr.
From Stdlib Require Import Ascii String.

Module Ticker.
Import PyStr.

Local Open Scope string_scope.

Definition DEFAULT_SUFFIX : string := ".JK".

Definition normalize_ticker (t : string) : string :=
  let t := upper (strip t) in
  if py_in "." t then t else t ++ DEFAULT_SUFFIX.

(** A normalized ticker: stripped, upper case, and containing a dot. *)
Definition normal (u : string) : Prop :=
  strip u = u /\ upper u = u /\ py_in "." u = true.

(** ** Helper lemmas *)

(** [upper (strip t)] is stripped and upper case. *)
Lemma upper_strip_stripped t :
  strip (upper (strip t)) = upper (strip t) /\ upper (upper (strip t)) = upper (strip t).
Proof. by rewrite strip_upper, strip_idem, upper_idem. Qed.

Lemma normalize_ticker_is_normal t : normal (normalize_ticker t).
Proof.
  unfold normalize_ticker, normal.
  destruct (upper_strip_stripped t) as [Hs Hu].
  set (u := upper (strip t)) in *.
  destruct (py_in "." u) eqn:Hd; [done |].
  repeat split.
  - apply strip_app_stripped; done.
  - by rewrite upper_app, Hu.
  - by apply py_in_app_r.
Qed.

Lemma normalize_ticker_normal u : normal u -> normalize_ticker u = u.
Proof.
  intros (Hs & Hu & Hd). unfold normalize_ticker.
  by rewrite Hs, Hu, Hd.
Qed.

(** Trimming and upper-casing the input first does not change the ticker. *)
Lemma normalize_ticker_upper_strip t : normalize_ticker (upper (strip t)) = normalize_ticker t.
Proof.
  unfold normalize_ticker. destruct (upper_strip_stripped t) as [Hs Hu].
  by rewrite Hs, Hu.
Qed.

(** ** Properties *)

(** C4: normalize_ticker puts every input in normal form: the result has
    no surrounding whitespace, no lower-case letter and contains a dot,
    so the market suffix is never appended twice; and it is idempotent:
    normalizing a normalized ticker (for instance "BBCA.JK") returns it
    unchanged. *)
Theorem normalize_ticker_canonical t :
  strip (normalize_ticker t) = normalize_ticker t /\
  upper (normalize_ticker t) = normalize_ticker t /\
  py_in "." (normalize_ticker t) = true /\
  normalize_ticker (normalize_ticker t) = normalize_ticker t.
Proof.
  pose proof (normalize_ticker_is_normal t) as Hn.
  split; [apply Hn | split; [apply Hn | split; [apply Hn | by apply normalize_ticker_normal]]].
Qed.

(** The examples of the spec (section 8) and its empty-input case:
    "bbni" becomes "BBNI.JK", "BBCA.JK" is kept, "  tlkm  " becomes
    "TLKM.JK", and the empty string becomes ".JK". *)
Theorem normalize_ticker_examples :
  normalize_ticker "bbni" = "BBNI.JK" /\
  normalize_ticker "BBCA.JK" = "BBCA.JK" /\
  normalize_ticker "  tlkm  " = "TLKM.JK" /\
  normalize_ticker "" = ".JK".
Proof. repeat split; reflexivity. Qed.

End Ticker.
