(* ===== verification/Frame.v ===== *)
(** * The price table (the pandas DataFrame of src/app.py, lines 18-26)

    Three row types, one per stage of [load_data]:
    - [Yf.Row]: a row of [yf.Ticker(t).history(period="2y")]: the date
      index and the columns Open, High, Low, Close, Volume, Dividends and
      Stock Splits, each possibly missing (NaN is [None]);
    - [Raw.Row]: the same row after lines 21-25 attached EMA20, EMA50,
      EMA200, RSI14 and ATR14, which are missing during their warm-up;
    - [Bar]: a row that survived [df.dropna()] (line 26): every column is
      present.
    [dropna] maps [to_bar] and drops the [None]s: a row is kept, with its values, exactly when
    no column is missing.  Dates are integers (days). *)

From S2P Require Import Prelude.
From Stdlib Require Import ZArith.

Module Yf.
Record Row := {
  Date : Z;
  Open : option Q; High : option Q; Low : option Q; Close : option Q;
  Volume : option Q; Dividends : option Q; StockSplits : option Q
}.
End Yf.

Module Raw.
Record Row := {
  bar : Yf.Row;
  EMA20 : option Q; EMA50 : option Q; EMA200 : option Q;
  RSI14 : option Q; ATR14 : option Q
}.
End Raw.

Module Frame.

(** A row of the table that [load_data] returns. *)
Record Bar := {
  Date : Z;
  Open : Q; High : Q; Low : Q; Close : Q;
  Volume : Q; Dividends : Q; StockSplits : Q;
  EMA20 : Q; EMA50 : Q; EMA200 : Q; RSI14 : Q; ATR14 : Q
}.

(** The row with all its values when none is missing. *)
Definition to_bar (r : Raw.Row) : option Bar :=
  let b := Raw.bar r in
  match Yf.Open b, Yf.High b, Yf.Low b, Yf.Close b,
        Yf.Volume b, Yf.Dividends b, Yf.StockSplits b,
        Raw.EMA20 r, Raw.EMA50 r, Raw.EMA200 r, Raw.RSI14 r, Raw.ATR14 r with
  | Some o, Some h, Some l, Some c, Some v, Some d, Some s,
    Some e20, Some e50, Some e200, Some rsi, Some atr =>
      Some {| Date := Yf.Date b; Open := o; High := h; Low := l; Close := c;
              Volume := v; Dividends := d; StockSplits := s;
              EMA20 := e20; EMA50 := e50; EMA200 := e200;
              RSI14 := rsi; ATR14 := atr |}
  | _, _, _, _, _, _, _, _, _, _, _, _ => None
  end.

(** [df.dropna()]: keep, in order, the rows with no missing value. *)
Fixpoint dropna (df : list Raw.Row) : list Bar :=
  match df with
  | [] => []
  | r :: df' =>
      match to_bar r with
      | Some b => b :: dropna df'
      | None => dropna df'
      end
  end.

(** ** Lemmas *)

Lemma to_bar_date r b : to_bar r = Some b -> Date b = Yf.Date (Raw.bar r).
Proof.
  unfold to_bar. repeat case_match; try discriminate. by intros [= <-].
Qed.

(** A kept row carries the values of its columns. *)
Lemma to_bar_Some r b :
  to_bar r = Some b ->
  Date b = Yf.Date (Raw.bar r) /\
  Yf.Open (Raw.bar r) = Some (Open b) /\ Yf.High (Raw.bar r) = Some (High b) /\
  Yf.Low (Raw.bar r) = Some (Low b) /\ Yf.Close (Raw.bar r) = Some (Close b) /\
  Yf.Volume (Raw.bar r) = Some (Volume b) /\ Yf.Dividends (Raw.bar r) = Some (Dividends b) /\
  Yf.StockSplits (Raw.bar r) = Some (StockSplits b) /\
  Raw.EMA20 r = Some (EMA20 b) /\ Raw.EMA50 r = Some (EMA50 b) /\
  Raw.EMA200 r = Some (EMA200 b) /\ Raw.RSI14 r = Some (RSI14 b) /\
  Raw.ATR14 r = Some (ATR14 b).
Proof.
  unfold to_bar. repeat case_match; try discriminate. intros [= <-]. simpl.
  repeat split; congruence.
Qed.


Lemma elem_of_dropna df b : b ∈ dropna df <-> exists r, r ∈ df /\ to_bar r = Some b.
Proof.
  induction df as [|r df IH]; simpl.
  - setoid_rewrite elem_of_nil. naive_solver.
  - setoid_rewrite elem_of_cons.
    destruct (to_bar r) eqn:E; rewrite ?elem_of_cons, IH; naive_solver.
Qed.

Lemma length_dropna df : length (dropna df) <= length df.
Proof.
  induction df as [|r df IH]; simpl; [lia |].
  destruct (to_bar r); simpl; lia.
Qed.



End Frame.
