(* ===== verification/TradePlan.v ===== *)
(** * The trade-plan generator, [trade_plan] (src/app.py, lines 28-60)

    [trade_plan df] reads the last row of the loaded table and the
    trailing 60-row window, and returns the dictionary of nine levels and
    labels as a [Plan] record.  The definition follows the code line by
    line: [df.iloc[-1]] raises [IndexError] on an empty table; support and
    resistance are [df.Low.tail(60).min()] and [df.High.tail(60).max()];
    the branch is [close > float(last.EMA50)].

    The abstract specification [plan_spec] states the contract with the
    mathematical minimum and maximum: support and resistance are the
    extreme lows and highs of the window, and each level is the formula of
    its branch with [Qmin].  [trade_plan_spec] (a refinement lemma) proves
    that the code meets it; the order relations between the levels are
    then proved from the specification, and the relations the code does
    not guarantee are shown by concrete tables. *)

From S2P Require Import Prelude Frame.
From Stdlib Require Import String.

Module TradePlan.
Import Frame.

Local Open Scope Q_scope.

(** The dictionary returned at lines 50-60. *)
Record Plan := {
  close : Q; entry : Q; tp1 : Q; tp2 : Q; cutloss : Q;
  support : Q; resistance : Q; reco : string; why : string
}.

Definition RECO_BUY : string := "BUY / ACCUMULATE (terukur)".
Definition WHY_BUY : string :=
  "Uptrend (di atas EMA50). Entry ideal saat pullback dekat EMA20.".
Definition RECO_WAIT : string := "WAIT (tunggu setup)".
Definition WHY_WAIT : string :=
  "Belum kuat di atas EMA50. Jika entry, lakukan dekat support dengan cutloss ketat.".

(** The message of pandas' [IndexError] for [df.iloc[-1]] on an empty frame. *)
Definition ILOC_OUT_OF_BOUNDS : string := "single positional indexer is out-of-bounds".

Definition trade_plan (df : list Bar) : PyResult Plan :=
  match iloc_last df with
  | None => Err (IndexError ILOC_OUT_OF_BOUNDS)
  | Some last =>
      let close := Close last in
      let atr := ATR14 last in
      match tail 60 df with
      | [] => Err (IndexError ILOC_OUT_OF_BOUNDS) (* unreachable: [last] is in the window *)
      | w :: ws =>
          let support := series_min (Low w) (map Low ws) in
          let resistance := series_max (High w) (map High ws) in
          if Qltb (EMA50 last) close then
            let entry := EMA20 last in
            let cl := py_min (entry - 1.2 * atr) (support * 0.995) in
            let tp1 := entry + 1.5 * atr in
            let tp2 := py_min resistance (entry + 3 * atr) in
            Ok {| close := close; entry := entry; tp1 := tp1; tp2 := tp2;
                  cutloss := cl; support := support; resistance := resistance;
                  reco := RECO_BUY; why := WHY_BUY |}
          else
            let entry := support * 1.01 in
            let cl := support * 0.985 in
            let tp1 := py_min resistance (entry + 1.2 * atr) in
            let tp2 := resistance in
            Ok {| close := close; entry := entry; tp1 := tp1; tp2 := tp2;
                  cutloss := cl; support := support; resistance := resistance;
                  reco := RECO_WAIT; why := WHY_WAIT |}
      end
  end.

(** ** The abstract specification *)

(** [m] is the least (resp. greatest) value of [xs]. *)
Definition is_min_of (m : Q) (xs : list Q) : Prop := m ∈ xs /\ Forall (fun x => m <= x) xs.
Definition is_max_of (m : Q) (xs : list Q) : Prop := m ∈ xs /\ Forall (fun x => x <= m) xs.

(** The levels of the uptrend branch (lines 36-41). *)
Definition buy_levels (last : Bar) (p : Plan) : Prop :=
  entry p == EMA20 last /\
  cutloss p == Qmin (entry p - 1.2 * ATR14 last) (support p * 0.995) /\
  tp1 p == entry p + 1.5 * ATR14 last /\
  tp2 p == Qmin (resistance p) (entry p + 3 * ATR14 last) /\
  reco p = RECO_BUY /\ why p = WHY_BUY.

(** The levels of the wait branch (lines 43-48). *)
Definition wait_levels (last : Bar) (p : Plan) : Prop :=
  entry p == support p * 1.01 /\
  cutloss p == support p * 0.985 /\
  tp1 p == Qmin (resistance p) (entry p + 1.2 * ATR14 last) /\
  tp2 p == resistance p /\
  reco p = RECO_WAIT /\ why p = WHY_WAIT.

(** What a plan promises about the table it was computed from. *)
Definition plan_spec (df : list Bar) (p : Plan) : Prop :=
  exists last, iloc_last df = Some last /\
    close p = Close last /\
    is_min_of (support p) (map Low (tail 60 df)) /\
    is_max_of (resistance p) (map High (tail 60 df)) /\
    ((EMA50 last < Close last /\ buy_levels last p) \/
     (Close last <= EMA50 last /\ wait_levels last p)).

(** A row of sane prices: positive lows, the close and the open between
    the low and the high, a non-negative ATR. *)
Definition wf_bar (b : Bar) : Prop :=
  0 < Low b /\ Low b <= Close b <= High b /\ Low b <= Open b <= High b /\ 0 <= ATR14 b.

#[export] Instance wf_bar_dec b : Decision (wf_bar b).
Proof. unfold wf_bar. apply _. Defined.

#[export] Instance is_min_of_dec m xs : Decision (is_min_of m xs).
Proof. unfold is_min_of. apply _. Defined.

#[export] Instance is_max_of_dec m xs : Decision (is_max_of m xs).
Proof. unfold is_max_of. apply _. Defined.

(** ** Concrete tables for the examples *)

(** A row with the given date, prices and indicators (no volume, no
    corporate action, RSI 50, EMA200 equal to EMA50). *)
Definition mk_bar (d : Z) (o h l c e20 e50 atr : Q) : Bar :=
  {| Date := d; Open := o; High := h; Low := l; Close := c;
     Volume := 0; Dividends := 0; StockSplits := 0;
     EMA20 := e20; EMA50 := e50; EMA200 := e50; RSI14 := 50; ATR14 := atr |}.

(** The uptrend example of the spec (section 8): lows down to 90, highs
    up to 120, last close 110 above EMA50 100, EMA20 105, ATR 2. *)
Definition spec_buy_last : Bar := mk_bar 2 109 120 108 110 105 100 2.
Definition spec_buy_table : list Bar :=
  [mk_bar 1 95 100 90 97 95 92 2; spec_buy_last].

(** The wait example of the spec: support 85, resistance 130, last close
    90 below EMA50 100, ATR 3. *)
Definition spec_wait_last : Bar := mk_bar 2 92 95 88 90 93 100 3.
Definition spec_wait_table : list Bar :=
  [mk_bar 1 120 130 85 100 100 101 3; spec_wait_last].

(** An uptrend whose resistance (107) lies between the entry (105) and the
    first target (108). *)
Definition inverted_targets_table : list Bar := [mk_bar 1 103 107 100 106 105 100 2].

(** A tight range (100 to 100.5) below EMA50: the wait entry, 1% above
    support, is above the resistance. *)
Definition tight_range_table : list Bar := [mk_bar 1 100.1 100.5 100 100.2 100.3 101 1].

(** ** The refinement lemma and its helpers *)

Lemma tail_nonempty {A} (df : list A) last :
  iloc_last df = Some last -> exists w ws, tail 60 df = w :: ws.
Proof.
  intros H. pose proof (iloc_last_tail 60 df last ltac:(lia) H) as Ht.
  destruct (tail 60 df) as [|w ws]; [discriminate | eauto].
Qed.

Lemma series_min_is_min (w : Bar) ws :
  is_min_of (series_min (Low w) (map Low ws)) (map Low (w :: ws)).
Proof. split; [apply series_min_elem | apply Forall_forall; intros x Hx; by apply series_min_le]. Qed.

Lemma series_max_is_max (w : Bar) ws :
  is_max_of (series_max (High w) (map High ws)) (map High (w :: ws)).
Proof. split; [apply series_max_elem | apply Forall_forall; intros x Hx; by apply series_max_ge]. Qed.

(** Every successful plan meets the specification. *)
Lemma trade_plan_spec df p : trade_plan df = Ok p -> plan_spec df p.
Proof.
  unfold trade_plan, plan_spec. destruct (iloc_last df) as [last|] eqn:Hl; [| discriminate].
  destruct (tail 60 df) as [|w ws] eqn:Hw; [discriminate |].
  intros Hp. exists last. split; [done |].
  destruct (Qltb_spec (EMA50 last) (Close last)); injection Hp as <-;
    (split; [done | split; [apply series_min_is_min | split; [apply series_max_is_max |]]]).
  - left. split; [done |]. unfold buy_levels; simpl.
    rewrite !py_min_Qmin. repeat split; reflexivity.
  - right. split; [done |]. unfold wait_levels; simpl.
    rewrite !py_min_Qmin. repeat split; reflexivity.
Qed.

(** [trade_plan] raises exactly on the empty table. *)
Lemma trade_plan_Err df e : trade_plan df = Err e -> df = [] /\ e = IndexError ILOC_OUT_OF_BOUNDS.
Proof.
  unfold trade_plan. destruct (iloc_last df) as [last|] eqn:Hl.
  - destruct (tail_nonempty df last Hl) as (w & ws & ->).
    by destruct (Qltb (EMA50 last) (Close last)).
  - apply iloc_last_None in Hl. by intros [= <-].
Qed.

Lemma trade_plan_total df : df <> [] -> exists p, trade_plan df = Ok p.
Proof.
  intros Hne. destruct (trade_plan df) as [p|e] eqn:E; [eauto |].
  by apply trade_plan_Err in E as [-> _].
Qed.

(** The extremes of a column are unique up to [==]. *)
Lemma is_min_of_unique a b xs : is_min_of a xs -> is_min_of b xs -> a == b.
Proof.
  intros [Ha Fa] [Hb Fb]. rewrite Forall_forall in Fa. rewrite Forall_forall in Fb.
  pose proof (Fa b Hb). pose proof (Fb a Ha). lra.
Qed.

Lemma is_max_of_unique a b xs : is_max_of a xs -> is_max_of b xs -> a == b.
Proof.
  intros [Ha Fa] [Hb Fb]. rewrite Forall_forall in Fa. rewrite Forall_forall in Fb.
  pose proof (Fa b Hb). pose proof (Fb a Ha). lra.
Qed.

(** On a table of sane rows, the plan's support is positive and the last
    close lies between support and resistance. *)
Lemma spec_window_bounds df p last :
  plan_spec df p -> iloc_last df = Some last -> Forall wf_bar df ->
  wf_bar last /\ 0 < support p /\ support p <= Close last /\ Close last <= resistance p.
Proof.
  intros (last' & Hl' & _ & [Hs Fs] & [Hr Fr] & _) Hl Hwf.
  rewrite Hl in Hl'. injection Hl' as <-.
  rewrite Forall_forall in Fs. rewrite Forall_forall in Fr. rewrite Forall_forall in Hwf.
  pose proof (iloc_last_elem_tail 60 df last ltac:(lia) Hl) as Hin.
  assert (wf_bar last) as Hw by (apply Hwf; by eapply elem_of_tail).
  apply elem_of_map_iff in Hs as (b & Hsb & Hb).
  assert (wf_bar b) as Hwb by (apply Hwf; by eapply elem_of_tail).
  pose proof (Fs (Low last) ltac:(apply elem_of_map_iff; exists last; by split)).
  pose proof (Fr (High last) ltac:(apply elem_of_map_iff; exists last; by split)).
  split; [exact Hw |].
  destruct Hw as (? & [? ?] & _), Hwb as (? & _).
  rewrite Hsb in *. repeat split; lra.
Qed.

(** Open the specification of a successful plan into its branch facts. *)
Ltac open_spec H :=
  apply trade_plan_spec in H as (?lb & ?Hl & ?Hc & ?Hs & ?Hr &
    [[?Hbr (?He & ?Hcl & ?H1 & ?H2 & ?Hreco & ?Hwhy)] |
     [?Hbr (?He & ?Hcl & ?H1 & ?H2 & ?Hreco & ?Hwhy)]]).

(** The second target never exceeds the resistance. *)
Lemma tp2_le_resistance df p : trade_plan df = Ok p -> tp2 p <= resistance p.
Proof. intros Hp. open_spec Hp; rewrite H2; qmin_elim; lra. Qed.

(** On sane rows the plan's levels are ordered around the window: the
    cutloss below the support, the last close between the support and the
    resistance, the second target at most the resistance. *)
Lemma plan_levels_sane df p :
  Forall wf_bar df -> trade_plan df = Ok p ->
  cutloss p < support p /\ support p <= close p <= resistance p /\ tp2 p <= resistance p.
Proof.
  intros Hwf Hp. pose proof (tp2_le_resistance _ _ Hp) as Htp2.
  pose proof (trade_plan_spec _ _ Hp) as Hsp. open_spec Hp.
  all: destruct (spec_window_bounds df p lb Hsp Hl Hwf) as (_ & Hpos & ? & ?).
  all: rewrite Hc; split; [rewrite Hcl; qmin_elim; lra | done].
Qed.

(** ** Properties *)

(** C1: refinement: on every non-empty table [trade_plan] returns a plan,
    and every plan it returns meets the abstract specification: support
    and resistance are the least low and greatest high of the trailing
    60 rows, and the levels are those of the branch selected by
    [close > EMA50]. *)
Theorem trade_plan_refines df :
  df <> [] -> exists p, trade_plan df = Ok p /\ plan_spec df p.
Proof.
  intros Hne. destruct (trade_plan_total df Hne) as [p Hp].
  exists p. split; [done | by apply trade_plan_spec].
Qed.

(** C2: [trade_plan] raises, and raises pandas' [IndexError], exactly on
    the empty table. *)
Theorem trade_plan_error_iff df e :
  trade_plan df = Err e <-> df = [] /\ e = IndexError ILOC_OUT_OF_BOUNDS.
Proof. split; [apply trade_plan_Err | by intros [-> ->]]. Qed.

(** C3: the plan depends only on the trailing 60 rows: computing it on
    [df.tail(60)] gives the same plan. *)
Theorem trade_plan_tail_only df : trade_plan (tail 60 df) = trade_plan df.
Proof.
  unfold trade_plan. assert (tail 60 (tail 60 df) = tail 60 df) as ->.
  { unfold tail. rewrite length_drop, drop_drop. f_equal. lia. }
  destruct (iloc_last df) as [last|] eqn:Hl.
  - rewrite (iloc_last_tail 60 df last ltac:(lia) Hl). done.
  - apply iloc_last_None in Hl as ->. done.
Qed.

(** C7: on sane rows the last close lies between the support and the
    resistance of the plan. *)
Theorem trade_plan_close_in_range df p :
  Forall wf_bar df -> trade_plan df = Ok p ->
  support p <= close p <= resistance p.
Proof. intros Hwf Hp. apply (plan_levels_sane df p Hwf Hp). Qed.

(** C8: on sane rows the cutloss is strictly below the support in both
    branches (at most 99.5% of it in the uptrend, 98.5% otherwise). *)
Theorem trade_plan_cutloss_below_support df p :
  Forall wf_bar df -> trade_plan df = Ok p -> cutloss p < support p.
Proof. intros Hwf Hp. apply (plan_levels_sane df p Hwf Hp). Qed.

(** C9: on sane rows whose last ATR is positive, the cutloss is strictly
    below the entry in both branches. *)
Theorem trade_plan_cutloss_below_entry df p last :
  Forall wf_bar df -> iloc_last df = Some last -> 0 < ATR14 last ->
  trade_plan df = Ok p -> cutloss p < entry p.
Proof.
  intros Hwf Hl0 Hatr Hp. pose proof (trade_plan_spec _ _ Hp) as Hsp.
  open_spec Hp; rewrite Hl0 in Hl; injection Hl as <-.
  all: destruct (spec_window_bounds df p last Hsp Hl0 Hwf) as (_ & Hpos & _).
  all: rewrite Hcl; qmin_elim; lra.
Qed.

(** C11: in the wait branch the targets are ordered: target 1 is at most
    target 2. *)
Theorem trade_plan_wait_targets_ordered df p :
  trade_plan df = Ok p -> reco p = RECO_WAIT -> tp1 p <= tp2 p.
Proof.
  intros Hp Hw. open_spec Hp; [rewrite Hreco in Hw; discriminate |].
  rewrite H1, H2. qmin_elim; lra.
Qed.

(** C12: the uptrend branch orders its targets only when the resistance
    allows it: for every table whose last ATR is not negative, the second
    target of a BUY plan is below the first exactly when the resistance
    is below [entry + 1.5 * ATR], since the code caps target 2 by the
    resistance but not target 1. *)
Theorem trade_plan_buy_targets_inverted df p last :
  trade_plan df = Ok p -> reco p = RECO_BUY -> iloc_last df = Some last -> 0 <= ATR14 last ->
  (tp2 p < tp1 p <-> resistance p < entry p + 1.5 * ATR14 last).
Proof.
  intros Hp Hb Hl0 Ha. open_spec Hp; rewrite Hl0 in Hl; injection Hl as <-;
    [| by rewrite Hreco in Hb].
  rewrite H1, H2. qmin_elim; split; intros; lra.
Qed.

(** C13: the wait branch places its first target below its entry exactly
    when the trailing range is narrow: for every table whose last ATR is
    not negative, target 1 of a WAIT plan is below the entry
    [support * 1.01] exactly when the resistance, which caps target 1, is
    below [support * 1.01]. *)
Theorem trade_plan_wait_target_below_entry df p last :
  trade_plan df = Ok p -> reco p = RECO_WAIT -> iloc_last df = Some last -> 0 <= ATR14 last ->
  (tp1 p < entry p <-> resistance p < support p * 1.01).
Proof.
  intros Hp Hw Hl0 Ha. open_spec Hp; rewrite Hl0 in Hl; injection Hl as <-;
    [by rewrite Hreco in Hw |].
  rewrite H1, He. qmin_elim; split; intros; lra.
Qed.

(** C14: the uptrend example of the spec (section 8).  With last close
    110, EMA50 100, EMA20 105, ATR 2, window lows down to 90 and highs up
    to 120, the plan is BUY with entry 105, cutloss 89.55, target 1 108
    and target 2 111.  The spec states 107.5 and 110 for the targets: the
    code computes [105 + 1.5 * 2 = 108] and [min(120, 105 + 3 * 2) = 111]. *)
Theorem trade_plan_spec_example_buy df last p :
  iloc_last df = Some last ->
  Close last == 110 -> EMA50 last == 100 -> EMA20 last == 105 -> ATR14 last == 2 ->
  is_min_of 90 (map Low (tail 60 df)) -> is_max_of 120 (map High (tail 60 df)) ->
  trade_plan df = Ok p ->
  reco p = RECO_BUY /\ entry p == 105 /\ cutloss p == 89.55 /\ tp1 p == 108 /\ tp2 p == 111.
Proof.
  intros Hl0 Hc Hema50 Hema20 Hatr Hmin Hmax Hp. open_spec Hp.
  all: rewrite Hl0 in Hl; injection Hl as <-.
  all: pose proof (is_min_of_unique _ _ _ Hs Hmin); pose proof (is_max_of_unique _ _ _ Hr Hmax).
  - rewrite Hcl, H2. qmin_elim; repeat split; first [done | lra].
  - lra.
Qed.

(** The wait example of the spec (section 8).  With last close 90
    below EMA50 100, ATR 3, support 85 and resistance 130, the plan is WAIT
    with entry 85.85, cutloss 83.725, target 1 89.45 and target 2 130, as
    the spec states. *)
Theorem trade_plan_spec_example_wait df last p :
  iloc_last df = Some last ->
  Close last == 90 -> EMA50 last == 100 -> ATR14 last == 3 ->
  is_min_of 85 (map Low (tail 60 df)) -> is_max_of 130 (map High (tail 60 df)) ->
  trade_plan df = Ok p ->
  reco p = RECO_WAIT /\ entry p == 85.85 /\ cutloss p == 83.725 /\ tp1 p == 89.45 /\ tp2 p == 130.
Proof.
  intros Hl0 Hc Hema50 Hatr Hmin Hmax Hp. open_spec Hp.
  all: rewrite Hl0 in Hl; injection Hl as <-.
  all: pose proof (is_min_of_unique _ _ _ Hs Hmin); pose proof (is_max_of_unique _ _ _ Hr Hmax).
  - lra.
  - rewrite H1, He. qmin_elim; repeat split; first [done | lra].
Qed.

(** ** Witnesses *)

Lemma trade_plan_refines_witness :
  exists p, trade_plan spec_buy_table = Ok p /\ plan_spec spec_buy_table p.
Proof. apply trade_plan_refines. discriminate. Defined.

Lemma trade_plan_close_in_range_witness :
  exists p, trade_plan spec_buy_table = Ok p /\ support p <= close p <= resistance p.
Proof.
  eexists. split; [reflexivity |].
  apply (trade_plan_close_in_range spec_buy_table); [decide_concrete | reflexivity].
Defined.

Lemma trade_plan_cutloss_below_support_witness :
  exists p, trade_plan spec_wait_table = Ok p /\ cutloss p < support p.
Proof.
  eexists. split; [reflexivity |].
  apply (trade_plan_cutloss_below_support spec_wait_table); [decide_concrete | reflexivity].
Defined.

Lemma trade_plan_cutloss_below_entry_witness :
  exists p, trade_plan spec_buy_table = Ok p /\ cutloss p < entry p.
Proof.
  eexists. split; [reflexivity |].
  apply (trade_plan_cutloss_below_entry spec_buy_table _ spec_buy_last);
    [decide_concrete | reflexivity | decide_concrete | reflexivity].
Defined.

Lemma trade_plan_wait_targets_ordered_witness :
  exists p, trade_plan spec_wait_table = Ok p /\ tp1 p <= tp2 p.
Proof.
  eexists. split; [reflexivity |].
  apply (trade_plan_wait_targets_ordered spec_wait_table); reflexivity.
Defined.

(** On [inverted_targets_table] the uptrend targets are inverted. *)
Lemma trade_plan_buy_targets_inverted_witness :
  exists p, trade_plan inverted_targets_table = Ok p /\
    (tp2 p < tp1 p <-> resistance p < entry p + 1.5 * ATR14 (mk_bar 1 103 107 100 106 105 100 2)) /\
    tp2 p < tp1 p.
Proof.
  eexists. split; [reflexivity |]. split; [| decide_concrete].
  apply (trade_plan_buy_targets_inverted inverted_targets_table _ (mk_bar 1 103 107 100 106 105 100 2));
    first [reflexivity | decide_concrete].
Defined.

(** On [tight_range_table] the wait plan's first target is below its entry. *)
Lemma trade_plan_wait_target_below_entry_witness :
  exists p, trade_plan tight_range_table = Ok p /\
    (tp1 p < entry p <-> resistance p < support p * 1.01) /\ tp1 p < entry p.
Proof.
  eexists. split; [reflexivity |]. split; [| decide_concrete].
  apply (trade_plan_wait_target_below_entry tight_range_table _ (mk_bar 1 100.1 100.5 100 100.2 100.3 101 1));
    first [reflexivity | decide_concrete].
Defined.

Lemma trade_plan_spec_example_buy_witness :
  exists p, trade_plan spec_buy_table = Ok p /\
    (reco p = RECO_BUY /\ entry p == 105 /\ cutloss p == 89.55 /\ tp1 p == 108 /\ tp2 p == 111).
Proof.
  eexists. split; [reflexivity |].
  apply (trade_plan_spec_example_buy spec_buy_table spec_buy_last);
    first [reflexivity | decide_concrete].
Defined.

Lemma trade_plan_spec_example_wait_witness :
  exists p, trade_plan spec_wait_table = Ok p /\
    (reco p = RECO_WAIT /\ entry p == 85.85 /\ cutloss p == 83.725 /\ tp1 p == 89.45 /\ tp2 p == 130).
Proof.
  eexists. split; [reflexivity |].
  apply (trade_plan_spec_example_wait spec_wait_table spec_wait_last);
    first [reflexivity | decide_concrete].
Defined.

End TradePlan.
