(* ===== verification/Indicators.v ===== *)
(** * The indicator library the loader calls (pandas_ta; src/app.py, lines 21-25)

    pandas_ta is not code of this repository.  What [load_data] relies on
    is stated as the class [Indicators]: [ema], [rsi] and [atr] return a
    column aligned with their input (same length), and a value is missing
    at every row before the indicator's warm-up is complete ([i + 1 < n]:
    EMA(n) starts at row [n - 1]; RSI(n) and ATR(n), which first take
    differences, start at row [n]).  pandas_ta returns [None] instead of a
    column when the input is shorter than [n]; assigned to a DataFrame
    column this is a column of missing values, which the laws allow.

    [TaLib] is one instance of the class, executable, with the TA-Lib
    definitions (pandas_ta delegates to TA-Lib when it is installed): EMA
    seeded by the simple average of the first [n] values, then
    [e := 2/(n+1) * x + (1 - 2/(n+1)) * e]; RSI and ATR seeded by the
    simple average of the first [n] gains, losses or true ranges, then
    Wilder's smoothing [e := (e * (n-1) + x) / n].  A missing input value
    makes the whole column missing.

    Two further laws say what kind of numbers the columns hold: an EMA
    value is a weighted average of inputs, so it lies between their least
    and greatest value; an ATR value averages true ranges, so it is not
    negative.  Both hold for pandas_ta's own definitions (EWM averages)
    as for TA-Lib's, and [TaLib] proves them. *)

From S2P Require Import Prelude.
From Stdlib Require Import Qabs.

Local Open Scope Q_scope.

Class Indicators := {
  (** [ta.ema(close, n)] *)
  ema : nat -> list (option Q) -> list (option Q);
  (** [ta.rsi(close, n)] *)
  rsi : nat -> list (option Q) -> list (option Q);
  (** [ta.atr(high, low, close, n)] *)
  atr : list (option Q) -> list (option Q) -> list (option Q) -> nat -> list (option Q);

  ema_length : forall n xs, length (ema n xs) = length xs;
  rsi_length : forall n xs, length (rsi n xs) = length xs;
  atr_length : forall h l c n, length h = length c -> length l = length c ->
                 length (atr h l c n) = length c;
  ema_warmup : forall n xs i v, ema n xs !! i = Some v -> (i + 1 < n)%nat -> v = None;
  rsi_warmup : forall n xs i v, rsi n xs !! i = Some v -> (i + 1 < n)%nat -> v = None;
  atr_warmup : forall h l c n i v, atr h l c n !! i = Some v -> (i + 1 < n)%nat -> v = None;
  (** An average: every EMA value lies between the least and the greatest
      input. *)
  ema_between : forall n xs lo hi i v,
    (forall j x, xs !! j = Some (Some x) -> lo <= x <= hi) ->
    ema n xs !! i = Some (Some v) -> lo <= v <= hi;
  (** An average of true ranges, which are distances. *)
  atr_nonneg : forall h l c n i v, atr h l c n !! i = Some (Some v) -> 0 <= v
}.

Module TaLib.

(** The simple average of a non-empty list. *)
Definition sma (xs : list Q) : Q :=
  fold_right Qplus 0 xs / inject_Z (Z.of_nat (length xs)).

(** Exponential smoothing from [prev] with weight [alpha] (each value is
    kept in lowest terms, which does not change it as a rational). *)
Fixpoint ewm_go (alpha prev : Q) (xs : list Q) : list (option Q) :=
  match xs with
  | [] => []
  | x :: xs' =>
      let e := Qred (alpha * x + (1 - alpha) * prev) in
      Some e :: ewm_go alpha e xs'
  end.

(** Skip [skip] leading values, seed with the average of the next [n],
    then smooth the rest; missing until the seed is available. *)
Definition seeded (alpha : Q) (skip n : nat) (xs : list Q) : list (option Q) :=
  if decide (n = 0%nat \/ (length xs < skip + n)%nat) then replicate (length xs) None
  else
    let s := sma (take n (drop skip xs)) in
    replicate (skip + n - 1) None ++ Some s :: ewm_go alpha s (drop (skip + n) xs).

(** All values of a column, or [None] when one is missing. *)
Definition all_present (xs : list (option Q)) : option (list Q) := mapM id xs.

Definition ema (n : nat) (xs : list (option Q)) : list (option Q) :=
  match all_present xs with
  | Some vs => seeded (2 / inject_Z (Z.of_nat n + 1)) 0 n vs
  | None => replicate (length xs) None
  end.

(** Consecutive differences, aligned with the later row; the first row
    gets a placeholder 0 that the smoothing skips. *)
Definition diffs (f : Q -> Q -> Q) (vs : list Q) : list Q :=
  match vs with
  | [] => []
  | v :: vs' => 0 :: zip_with f vs vs'
  end.

Definition gain (prev cur : Q) : Q := py_max (cur - prev) 0.
Definition loss (prev cur : Q) : Q := py_max (prev - cur) 0.

Definition rsi_value (g l : option Q) : option Q :=
  match g, l with
  | Some g, Some l => Some (if Qeq_bool (g + l) 0 then 0 else 100 * g / (g + l))
  | _, _ => None
  end.

Definition rsi (n : nat) (xs : list (option Q)) : list (option Q) :=
  match all_present xs with
  | Some vs =>
      let alpha := 1 / inject_Z (Z.of_nat n) in
      zip_with rsi_value (seeded alpha 1 n (diffs gain vs)) (seeded alpha 1 n (diffs loss vs))
  | None => replicate (length xs) None
  end.

(** The true range of a row given the previous close. *)
Definition true_range (prev_close : Q) (hl : Q * Q) : Q :=
  py_max (py_max (hl.1 - hl.2) (Qabs (hl.1 - prev_close))) (Qabs (hl.2 - prev_close)).

Definition atr (h l c : list (option Q)) (n : nat) : list (option Q) :=
  match all_present h, all_present l, all_present c with
  | Some hs, Some ls, Some (c0 :: cs) =>
      let trs := 0 :: zip_with true_range (c0 :: cs) (drop 1 (zip hs ls)) in
      seeded (1 / inject_Z (Z.of_nat n)) 1 n trs
  | _, _, _ => replicate (length c) None
  end.

(** ** Lemmas *)

Lemma length_ewm_go alpha prev xs : length (ewm_go alpha prev xs) = length xs.
Proof. revert prev. induction xs as [|x xs IH]; intros prev; simpl; [done | by rewrite IH]. Qed.

Lemma length_seeded alpha skip n xs : length (seeded alpha skip n xs) = length xs.
Proof.
  unfold seeded. case_decide; [apply length_replicate |].
  rewrite length_app, length_replicate. simpl.
  rewrite length_ewm_go, length_drop. lia.
Qed.

(** Nothing is produced before the seed, at row [skip + n - 1]. *)
Lemma seeded_warmup alpha skip n xs i v :
  seeded alpha skip n xs !! i = Some v -> (i + 1 < skip + n)%nat -> v = None.
Proof.
  unfold seeded. case_decide.
  - by intros [-> _]%lookup_replicate.
  - intros Hv Hi. rewrite lookup_app_l in Hv by (rewrite length_replicate; lia).
    by apply lookup_replicate in Hv as [-> _].
Qed.

Lemma all_present_length xs vs : all_present xs = Some vs -> length vs = length xs.
Proof. intros H. apply mapM_Some_1 in H. symmetry. by eapply Forall2_length. Qed.

Lemma length_diffs f vs : length (diffs f vs) = length vs.
Proof.
  unfold diffs. destruct vs as [|v vs]; [done |].
  cbn [length]. rewrite length_zip_with. cbn [length]. lia.
Qed.

(** *** Averages stay between bounds *)

Lemma convex_between alpha lo hi x y :
  0 <= alpha <= 1 -> lo <= x <= hi -> lo <= y <= hi ->
  lo <= alpha * x + (1 - alpha) * y <= hi.
Proof. intros. nra. Qed.

Lemma ewm_go_between alpha lo hi prev xs i v :
  0 <= alpha <= 1 -> lo <= prev <= hi -> Forall (fun x => lo <= x <= hi) xs ->
  ewm_go alpha prev xs !! i = Some (Some v) -> lo <= v <= hi.
Proof.
  revert prev i. induction xs as [|x xs IH]; intros prev i Ha Hp Hxs Hv; [done |].
  apply Forall_cons in Hxs as [Hx Hxs].
  assert (lo <= Qred (alpha * x + (1 - alpha) * prev) <= hi) as He
    by (rewrite Qred_correct; by apply convex_between).
  destruct i as [|i]; simpl in Hv; [injection Hv as <-; exact He | exact (IH _ _ Ha He Hxs Hv)].
Qed.

Lemma sum_between lo hi xs :
  Forall (fun x => lo <= x <= hi) xs ->
  inject_Z (Z.of_nat (length xs)) * lo <= fold_right Qplus 0 xs <= inject_Z (Z.of_nat (length xs)) * hi.
Proof.
  induction xs as [|x xs IH]; intros Hxs; [cbn [length fold_right]; change (inject_Z (Z.of_nat 0)) with 0; lra |].
  apply Forall_cons in Hxs as [Hx Hxs]. destruct (IH Hxs).
  cbn [length fold_right]. rewrite Nat2Z.inj_succ, <- Z.add_1_r, inject_Z_plus.
  change (inject_Z 1) with 1. nra.
Qed.

Lemma sma_between lo hi xs :
  xs <> [] -> Forall (fun x => lo <= x <= hi) xs -> lo <= sma xs <= hi.
Proof.
  intros Hne Hxs. destruct (sum_between lo hi xs Hxs) as [H1 H2].
  assert (0 < inject_Z (Z.of_nat (length xs))) as Hk.
  { change 0 with (inject_Z 0). rewrite <- Zlt_Qlt. destruct xs; [done | simpl; lia]. }
  unfold sma. split.
  - apply Qle_shift_div_l; [exact Hk | nra].
  - apply Qle_shift_div_r; [exact Hk | nra].
Qed.

(** The weights [a / k] with [0 <= a <= k] are between 0 and 1. *)
Lemma weight_between (a : Q) (k : Z) : 0 <= a -> a <= inject_Z k -> 0 < inject_Z k -> 0 <= a / inject_Z k <= 1.
Proof.
  intros Ha Hak Hk. split.
  - apply Qle_shift_div_l; [exact Hk | lra].
  - apply Qle_shift_div_r; [exact Hk | lra].
Qed.

(** Every value of a seeded smoothing lies between bounds of the values
    it smooths. *)
Lemma seeded_between alpha skip n xs lo hi i v :
  ((0 < n)%nat -> 0 <= alpha <= 1) -> Forall (fun x => lo <= x <= hi) (drop skip xs) ->
  seeded alpha skip n xs !! i = Some (Some v) -> lo <= v <= hi.
Proof.
  intros Ha Hxs. unfold seeded. case_decide as Hd; [by intros [? _]%lookup_replicate |].
  assert (0 < n)%nat as Hn by lia. specialize (Ha Hn).
  intros [Hv | [Hlen Hv]]%lookup_app_Some; [by apply lookup_replicate in Hv as [? _] |].
  destruct (i - length (replicate (skip + n - 1) None))%nat as [|k]; simpl in Hv.
  - injection Hv as <-. apply sma_between; [| by apply Forall_take].
    intros E. apply (f_equal length) in E. rewrite length_take, length_drop in E. simpl in E. lia.
  - rewrite <- drop_drop in Hv. eapply ewm_go_between; [exact Ha | | by apply Forall_drop | exact Hv].
    apply sma_between; [| by apply Forall_take].
    intros E. apply (f_equal length) in E. rewrite length_take, length_drop in E. simpl in E. lia.
Qed.

Lemma ema_length' n xs : length (ema n xs) = length xs.
Proof.
  unfold ema. destruct (all_present xs) as [vs|] eqn:E; [| apply length_replicate].
  rewrite length_seeded. by apply all_present_length.
Qed.

Lemma ema_warmup' n xs i v : ema n xs !! i = Some v -> (i + 1 < n)%nat -> v = None.
Proof.
  unfold ema. destruct (all_present xs).
  - intros Hv Hi. eapply seeded_warmup; [exact Hv | lia].
  - by intros [-> _]%lookup_replicate.
Qed.

Lemma rsi_length' n xs : length (rsi n xs) = length xs.
Proof.
  unfold rsi. destruct (all_present xs) as [vs|] eqn:E; [| apply length_replicate].
  rewrite length_zip_with, !length_seeded, !length_diffs.
  rewrite (all_present_length _ _ E). lia.
Qed.

Lemma rsi_warmup' n xs i v : rsi n xs !! i = Some v -> (i + 1 < n)%nat -> v = None.
Proof.
  unfold rsi. destruct (all_present xs).
  - intros (g & lo & -> & Hg & _)%lookup_zip_with_Some Hi.
    rewrite (seeded_warmup _ _ _ _ _ _ Hg) by lia. done.
  - by intros [-> _]%lookup_replicate.
Qed.

Lemma atr_length' h l c n :
  length h = length c -> length l = length c -> length (atr h l c n) = length c.
Proof.
  intros Hh Hl. unfold atr.
  destruct (all_present h) as [hs|] eqn:Eh, (all_present l) as [ls|] eqn:El,
    (all_present c) as [[|c0 cs]|] eqn:Ec; try apply length_replicate.
  apply all_present_length in Eh, El, Ec.
  rewrite length_seeded. cbn [length].
  rewrite length_zip_with, length_drop, length_zip. cbn [length] in *. lia.
Qed.

Lemma atr_warmup' h l c n i v : atr h l c n !! i = Some v -> (i + 1 < n)%nat -> v = None.
Proof.
  unfold atr.
  destruct (all_present h), (all_present l), (all_present c) as [[|c0 cs]|];
    try by intros [-> _]%lookup_replicate.
  intros Hv Hi. eapply seeded_warmup; [exact Hv | lia].
Qed.

(** *** The value laws *)

Lemma all_present_lookup xs vs j y :
  all_present xs = Some vs -> vs !! j = Some y -> xs !! j = Some (Some y).
Proof.
  intros H Hy. apply mapM_Some_1 in H.
  destruct (Forall2_lookup_r _ _ _ _ _ H Hy) as (x & Hx & Hxy). by rewrite Hx, <- Hxy.
Qed.

Lemma ema_between' n xs lo hi i v :
  (forall j x, xs !! j = Some (Some x) -> lo <= x <= hi) ->
  ema n xs !! i = Some (Some v) -> lo <= v <= hi.
Proof.
  intros Hxs. unfold ema. destruct (all_present xs) as [vs|] eqn:E; [| by intros [? _]%lookup_replicate].
  apply seeded_between.
  - intros Hn. apply weight_between; [lra | change 2 with (inject_Z 2) |];
      [| change 0 with (inject_Z 0)]; rewrite <- ?Zle_Qle, <- ?Zlt_Qlt; lia.
  - rewrite drop_0. apply Forall_lookup_2. intros j y Hy. apply (Hxs j). by eapply all_present_lookup.
Qed.

Lemma true_range_nonneg pc hl : 0 <= true_range pc hl.
Proof.
  unfold true_range. eapply Qle_trans; [apply Qabs_nonneg |].
  eapply Qle_trans; [apply py_max_ge_r | apply py_max_ge_l].
Qed.

(** Non-negative values lie between 0 and their maximum. *)
Lemma nonneg_bounded l :
  Forall (fun x => 0 <= x) l -> Forall (fun x => 0 <= x <= fold_right Qmax 0 l) l.
Proof.
  induction l as [|x l IH]; intros Hl; [constructor |]. apply Forall_cons in Hl as [Hx Hl].
  constructor; [split; [done | apply Q.le_max_l] |].
  eapply Forall_impl; [exact (IH Hl) |]. intros y [? ?].
  split; [done | eapply Qle_trans; [eassumption | apply Q.le_max_r]].
Qed.

Lemma atr_nonneg' h l c n i v : atr h l c n !! i = Some (Some v) -> 0 <= v.
Proof.
  unfold atr. destruct (all_present h), (all_present l), (all_present c) as [[|c0 cs]|];
    try by intros [? _]%lookup_replicate.
  match goal with |- context [seeded _ _ _ (0 :: ?t)] => set (trs := t) end.
  assert (Forall (fun x => 0 <= x) trs) as Htr.
  { apply Forall_lookup_2. intros j x Hx.
    apply lookup_zip_with_Some in Hx as (a & b & -> & _). apply true_range_nonneg. }
  intros Hv. refine (proj1 (seeded_between _ 1 n (0 :: trs) 0 (fold_right Qmax 0 trs) i v _ _ Hv)).
  - intros Hn. apply weight_between; [lra | change 1 with (inject_Z 1) |];
      [| change 0 with (inject_Z 0)]; rewrite <- ?Zle_Qle, <- ?Zlt_Qlt; lia.
  - by apply nonneg_bounded.
Qed.

End TaLib.

(** The TA-Lib definitions satisfy the interface. *)
#[export] Instance talib_indicators : Indicators := {|
  ema := TaLib.ema; rsi := TaLib.rsi; atr := TaLib.atr;
  ema_length := TaLib.ema_length'; rsi_length := TaLib.rsi_length';
  atr_length := TaLib.atr_length';
  ema_warmup := TaLib.ema_warmup'; rsi_warmup := TaLib.rsi_warmup';
  atr_warmup := TaLib.atr_warmup';
  ema_between := TaLib.ema_between'; atr_nonneg := TaLib.atr_nonneg'
|}.
