(* ===== verification/Loader.v ===== *)
(** * The data loader, [load_data] (src/app.py, lines 16-26)

    [load_data] is written in a section over the indicator interface
    [Indicators] and over [history], the answer of
    [yf.Ticker(t).history(period="2y")] for each ticker: a frame, [None],
    or an exception.  The section's theorems hold for every provider and
    every lawful indicator library; the examples use the [TaLib] instance.

    The theorems: the two error paths (provider exception, no data);
    every loaded row is a provider row, complete, carrying the indicators
    computed at its own position, and past the 200-row warm-up of EMA200;
    and with fewer than 200
    provider rows the loader returns an empty table instead of failing.
    Composed with [trade_plan] through the laws of the indicator
    interface: on sane provider prices every loaded row is sane and the
    plan's levels are ordered; every moving average of a loaded row, and
    the entry of an uptrend plan, lies between the least and the
    greatest close the provider returned. *)

From S2P Require Import Prelude Frame TradePlan Indicators.
From Stdlib Require Import ZArith.

Module Loader.
Import Frame TradePlan.

Local Open Scope py_scope.

Definition NO_DATA_MSG : string :=
  "Data harga tidak ditemukan. Coba kode seperti BBNI / BBCA / TLKM.".

(** The value of an indicator column at row [i] (missing past its end). *)
Definition col_at (c : list (option Q)) (i : nat) : option Q :=
  match c !! i with
  | Some v => v
  | None => None
  end.

Section WithProvider.
Context `{TA : Indicators}.

(** Lines 21-25: attach the five indicator columns, aligned by row. *)
Definition add_indicators (df : list Yf.Row) : list Raw.Row :=
  let close := map Yf.Close df in
  let e20 := ema 20 close in
  let e50 := ema 50 close in
  let e200 := ema 200 close in
  let r14 := rsi 14 close in
  let a14 := atr (map Yf.High df) (map Yf.Low df) close 14 in
  imap (fun i r => {| Raw.bar := r;
                      Raw.EMA20 := col_at e20 i; Raw.EMA50 := col_at e50 i;
                      Raw.EMA200 := col_at e200 i; Raw.RSI14 := col_at r14 i;
                      Raw.ATR14 := col_at a14 i |}) df.

Variable history : string -> PyResult (option (list Yf.Row)).

(** Lines 17-26. *)
Definition load_data (ticker : string) : PyResult (list Bar) :=
  let! df := history ticker in
  match df with
  | None | Some [] => Err (ValueError NO_DATA_MSG)
  | Some rows => Ok (dropna (add_indicators rows))
  end.

End WithProvider.

(** ** Sane provider data *)

(** A provider row whose prices, where present, are sane: a positive
    low, the close and the open between the low and the high. *)
Definition sane_row (y : Yf.Row) : Prop :=
  forall o h l c, Yf.Open y = Some o -> Yf.High y = Some h -> Yf.Low y = Some l ->
    Yf.Close y = Some c -> (0 < l /\ l <= c <= h /\ l <= o <= h)%Q.

(** Every close the provider returned lies in [[lo, hi]]. *)
Definition closes_between (lo hi : Q) (rows : list Yf.Row) : Prop :=
  forall y c, y ∈ rows -> Yf.Close y = Some c -> (lo <= c <= hi)%Q.

(** ** Example data *)

(** A provider row with all columns present. *)
Definition yf_row (d : Z) (o h l c : Q) : Yf.Row :=
  {| Yf.Date := d; Yf.Open := Some o; Yf.High := Some h; Yf.Low := Some l;
     Yf.Close := Some c; Yf.Volume := Some 1000%Q; Yf.Dividends := Some 0%Q;
     Yf.StockSplits := Some 0%Q |}.

(** [n] flat days closing at 100 in the range 98-102, then one day
    closing at 110 in the range 100-112. *)
Definition synthetic_rows (n : nat) : list Yf.Row :=
  map (fun k => yf_row (Z.of_nat k) 100 102 98 100) (seq 0 n) ++
  [yf_row (Z.of_nat n) 101 112 100 110].

(** A provider that answers every ticker with the same rows. *)
Definition constant_provider (rows : list Yf.Row) : string -> PyResult (option (list Yf.Row)) :=
  fun _ => Ok (Some rows).

(** ** Lemmas *)

Section Lemmas.
Context `{TA : Indicators}.

Lemma col_at_warmup_ema n xs i : (i + 1 < n)%nat -> col_at (ema n xs) i = None.
Proof.
  intros Hi. unfold col_at. destruct (ema n xs !! i) as [v|] eqn:E; [| done].
  by eapply ema_warmup.
Qed.

Lemma lookup_add_indicators df i r :
  add_indicators df !! i = Some r ->
  exists y, df !! i = Some y /\ Raw.bar r = y /\
    Raw.EMA20 r = col_at (ema 20 (map Yf.Close df)) i /\
    Raw.EMA50 r = col_at (ema 50 (map Yf.Close df)) i /\
    Raw.EMA200 r = col_at (ema 200 (map Yf.Close df)) i /\
    Raw.RSI14 r = col_at (rsi 14 (map Yf.Close df)) i /\
    Raw.ATR14 r = col_at (atr (map Yf.High df) (map Yf.Low df) (map Yf.Close df) 14) i.
Proof.
  unfold add_indicators. rewrite list_lookup_imap.
  destruct (df !! i) as [y|]; simpl; [| discriminate].
  intros [= <-]. exists y. simpl. repeat split.
Qed.

Lemma length_add_indicators df : length (add_indicators df) = length df.
Proof. apply length_imap. Qed.

(** A row without EMA200 is dropped. *)
Lemma to_bar_no_ema200 r : Raw.EMA200 r = None -> to_bar r = None.
Proof. unfold to_bar. intros ->. by repeat case_match. Qed.

(** Rows whose index is below [k] and which [to_bar] drops do not
    contribute to [dropna]. *)
Lemma dropna_drop_prefix (l : list Raw.Row) k :
  (forall i r, (i < k)%nat -> l !! i = Some r -> to_bar r = None) ->
  dropna l = dropna (drop k l).
Proof.
  revert l. induction k as [|k IH]; intros l H; [by rewrite drop_0 |].
  destruct l as [|r l]; [done |]. simpl.
  rewrite (H 0%nat r) by (done || lia).
  apply IH. intros i r' Hi Hr. apply (H (S i)); [lia | done].
Qed.

(** The EMA200 warm-up: the first 199 rows are always dropped. *)
Lemma dropna_add_indicators df :
  dropna (add_indicators df) = dropna (drop 199 (add_indicators df)).
Proof.
  apply dropna_drop_prefix. intros i r Hi Hr.
  apply lookup_add_indicators in Hr as (y & _ & _ & _ & _ & He & _).
  apply to_bar_no_ema200. rewrite He. apply col_at_warmup_ema. lia.
Qed.

(** Each row kept by [dropna] comes from a position of its input. *)
Lemma elem_of_dropna_lookup l b :
  b ∈ dropna l -> exists i r, l !! i = Some r /\ to_bar r = Some b.
Proof.
  intros (r & Hr & Hb)%elem_of_dropna. apply list_elem_of_lookup in Hr as [i Hi]. eauto.
Qed.

Lemma map_bar_add_indicators df : map Raw.bar (add_indicators df) = df.
Proof.
  unfold add_indicators. apply list_eq. intros i.
  rewrite list_lookup_fmap, list_lookup_imap. by destruct (df !! i).
Qed.

(** The synthetic rows are sane, with closes in [[98, 110]]. *)
Lemma synthetic_rows_sane n : Forall sane_row (synthetic_rows n).
Proof.
  unfold synthetic_rows. apply Forall_app. split; [apply Forall_fmap, Forall_forall; intros k _ |
    apply Forall_singleton]; intros o h l c [= <-] [= <-] [= <-] [= <-]; lra.
Qed.

Lemma synthetic_rows_closes n : closes_between 98 110 (synthetic_rows n).
Proof.
  intros y c [(k & -> & _)%list_elem_of_fmap | ->%list_elem_of_singleton]%elem_of_app [= <-]; lra.
Qed.

Lemma col_at_Some c i v : col_at c i = Some v -> c !! i = Some (Some v).
Proof. unfold col_at. destruct (c !! i) as [[w|]|]; congruence. Qed.

(** A bar built from an indicator row of sane provider rows is sane: its
    prices are the provider's, and its ATR is not negative. *)
Lemma add_indicators_bar_wf rows i r b :
  Forall sane_row rows -> add_indicators rows !! i = Some r -> to_bar r = Some b -> wf_bar b.
Proof.
  intros Hs Hr Hb.
  apply lookup_add_indicators in Hr as (y & Hy & <- & _ & _ & _ & _ & Hatr).
  apply to_bar_Some in Hb as (_ & Ho & Hh & Hl & Hc & _ & _ & _ & _ & _ & _ & _ & Ha).
  rewrite Forall_lookup in Hs. destruct (Hs i _ Hy _ _ _ _ Ho Hh Hl Hc) as (? & [? ?] & [? ?]).
  rewrite Ha in Hatr. symmetry in Hatr. apply col_at_Some, atr_nonneg in Hatr.
  repeat split; assumption.
Qed.

(** The moving averages of an indicator row lie between bounds of the
    provider's closes. *)
Lemma add_indicators_ema_between rows i r b lo hi :
  closes_between lo hi rows -> add_indicators rows !! i = Some r -> to_bar r = Some b ->
  (lo <= EMA20 b <= hi /\ lo <= EMA50 b <= hi /\ lo <= EMA200 b <= hi)%Q.
Proof.
  intros Hc Hr Hb.
  apply lookup_add_indicators in Hr as (y & Hy & <- & H20 & H50 & H200 & _).
  apply to_bar_Some in Hb as (_ & _ & _ & _ & _ & _ & _ & _ & E20 & E50 & E200 & _).
  assert (forall j x, map Yf.Close rows !! j = Some (Some x) -> (lo <= x <= hi)%Q) as Hx.
  { intros j x Hj. rewrite list_lookup_fmap in Hj.
    destruct (rows !! j) as [z|] eqn:Ez; [| discriminate]. injection Hj as Hj.
    apply (Hc z); [by eapply list_elem_of_lookup_2 | done]. }
  rewrite E20 in H20. rewrite E50 in H50. rewrite E200 in H200.
  split; [| split]; eapply ema_between; (exact Hx || (apply col_at_Some; by symmetry)).
Qed.

End Lemmas.

Section Properties.
Context `{TA : Indicators}.
Variable history : string -> PyResult (option (list Yf.Row)).

(** The table [load_data] returns for a provider answer with rows. *)
Lemma load_data_Ok t rows df :
  history t = Ok (Some rows) -> load_data history t = Ok df ->
  rows <> [] /\ df = dropna (add_indicators rows).
Proof.
  unfold load_data, py_bind. intros ->. destruct rows as [|r rows']; [discriminate |].
  intros H. injection H. intros. subst. split; [discriminate | reflexivity].
Qed.

Lemma load_data_rows t rows df :
  history t = Ok (Some rows) -> load_data history t = Ok df ->
  df = dropna (drop 199 (add_indicators rows)).
Proof.
  intros Hh Hl. destruct (load_data_Ok t rows df Hh Hl) as [_ ->].
  apply (dropna_add_indicators rows).
Qed.

(** With rows, [load_data] returns the rows past the warm-up that have
    every value. *)
Lemma load_data_some_rows t rows :
  history t = Ok (Some rows) -> rows <> [] ->
  load_data history t = Ok (dropna (drop 199 (add_indicators rows))).
Proof.
  intros Hh Hne. unfold load_data, py_bind. rewrite Hh.
  destruct rows as [|r rows']; [done |].
  by rewrite <- (dropna_add_indicators (r :: rows')).
Qed.

(** Each loaded bar is built from an indicator row of the provider's rows. *)
Lemma loaded_bar_source t rows df b :
  history t = Ok (Some rows) -> load_data history t = Ok df -> b ∈ df ->
  exists i r, add_indicators rows !! i = Some r /\ to_bar r = Some b.
Proof.
  intros Hh Hl Hb. destruct (load_data_Ok t rows df Hh Hl) as [_ ->].
  by apply elem_of_dropna_lookup.
Qed.

(** C16: [load_data] raises exactly when the provider raises (the same
    exception) or returns no frame or an empty one (the [ValueError] with
    the hint "Coba kode seperti BBNI / BBCA / TLKM"). *)
Theorem load_data_error_iff t e :
  load_data history t = Err e <->
  history t = Err e \/
  ((history t = Ok None \/ history t = Ok (Some [])) /\ e = ValueError NO_DATA_MSG).
Proof.
  unfold load_data, py_bind. destruct (history t) as [[[|r rows]|]|e'];
    split; intros H; try naive_solver; by destruct H as [H | [[H | H] _]].
Qed.

(** C17: every row of the loaded table is a provider row at some position
    [i >= 199], complete, whose indicator values are those the library
    computed at position [i]. *)
Theorem load_data_rows_aligned t rows df b :
  history t = Ok (Some rows) -> load_data history t = Ok df -> b ∈ df ->
  exists i y, (199 <= i)%nat /\ rows !! i = Some y /\
    Date b = Yf.Date y /\ Yf.Open y = Some (Open b) /\ Yf.High y = Some (High b) /\
    Yf.Low y = Some (Low b) /\ Yf.Close y = Some (Close b) /\
    col_at (ema 20 (map Yf.Close rows)) i = Some (EMA20 b) /\
    col_at (ema 50 (map Yf.Close rows)) i = Some (EMA50 b) /\
    col_at (ema 200 (map Yf.Close rows)) i = Some (EMA200 b) /\
    col_at (rsi 14 (map Yf.Close rows)) i = Some (RSI14 b) /\
    col_at (atr (map Yf.High rows) (map Yf.Low rows) (map Yf.Close rows) 14) i = Some (ATR14 b).
Proof.
  intros Hh Hl Hb. rewrite (load_data_rows t rows df Hh Hl) in Hb.
  apply elem_of_dropna_lookup in Hb as (j & r & Hr & Hbar).
  rewrite lookup_drop in Hr.
  apply lookup_add_indicators in Hr as (y & Hy & <- & H20 & H50 & H200 & Hrsi & Hatr).
  apply to_bar_Some in Hbar as (Hd & Ho & Hhi & Hlo & Hc & _ & _ & _ & E20 & E50 & E200 & Ersi & Eatr).
  exists (199 + j)%nat, (Raw.bar r). repeat split; first [lia | done | congruence].
Qed.


(** C18: with fewer than 200 provider rows the loader does not fail: it
    returns an empty table, every row being dropped by the EMA200
    warm-up.  The spec says the table is non-empty or the loader fails. *)
Theorem load_data_short_history_empty t rows :
  history t = Ok (Some rows) -> rows <> [] -> (length rows < 200)%nat ->
  load_data history t = Ok [].
Proof.
  intros Hh Hne Hlen. rewrite (load_data_some_rows t rows Hh Hne), drop_ge; [done |].
  rewrite length_add_indicators. lia.
Qed.

(** The loaded table has at most [length rows - 199] rows. *)
Theorem load_data_length_bound t rows df :
  history t = Ok (Some rows) -> load_data history t = Ok df ->
  (length df <= length rows - 199)%nat.
Proof.
  intros Hh Hl. rewrite (load_data_rows t rows df Hh Hl).
  etransitivity; [apply length_dropna |].
  rewrite length_drop, length_add_indicators. lia.
Qed.

(** C10: composition of the loader and the plan: on provider rows with
    sane prices (positive lows, the open and the close between the low
    and the high), every table [load_data] returns meets the precondition
    of [trade_plan]'s theorems, and the plan computed from it has its
    levels in order: the cutloss below the support, the last close
    between the support and the resistance, the second target at most
    the resistance. *)
Theorem load_data_plan_sane t rows df p :
  history t = Ok (Some rows) -> Forall sane_row rows ->
  load_data history t = Ok df -> trade_plan df = Ok p ->
  Forall wf_bar df /\
  (cutloss p < support p /\ support p <= close p <= resistance p /\ tp2 p <= resistance p)%Q.
Proof.
  intros Hh Hs Hl Hp.
  assert (Forall wf_bar df) as Hwf.
  { apply Forall_forall. intros b Hb.
    destruct (loaded_bar_source t rows df b Hh Hl Hb) as (i & r & Hr & Hbr).
    by eapply add_indicators_bar_wf. }
  split; [done | exact (plan_levels_sane df p Hwf Hp)].
Qed.

(** C21: the moving averages the plan reads are averages of the
    provider's closes: when every close lies in [[lo, hi]], so do the
    EMA20, EMA50 and EMA200 of every loaded row, and the entry of an
    uptrend plan, its last EMA20, lies in [[lo, hi]] too. *)
Theorem load_data_ema_between t rows df p lo hi :
  history t = Ok (Some rows) -> closes_between lo hi rows -> load_data history t = Ok df ->
  Forall (fun b => lo <= EMA20 b <= hi /\ lo <= EMA50 b <= hi /\ lo <= EMA200 b <= hi)%Q df /\
  (trade_plan df = Ok p -> reco p = RECO_BUY -> (lo <= entry p <= hi)%Q).
Proof.
  intros Hh Hc Hl.
  assert (Forall (fun b => lo <= EMA20 b <= hi /\ lo <= EMA50 b <= hi /\ lo <= EMA200 b <= hi)%Q df)
    as Hall.
  { apply Forall_forall. intros b Hb.
    destruct (loaded_bar_source t rows df b Hh Hl Hb) as (i & r & Hr & Hbr).
    by eapply add_indicators_ema_between. }
  split; [done |]. intros Hp Hreco.
  apply trade_plan_spec in Hp as (last & Hlast & _ & _ & _ &
    [[_ (He & _)] | [_ (_ & _ & _ & _ & Hw & _)]]); [| by rewrite Hreco in Hw].
  rewrite Forall_forall in Hall. destruct (Hall last (last_Some_elem_of _ _ Hlast)) as [? _].
  rewrite He. lra.
Qed.

End Properties.

(** ** Witnesses, with the TA-Lib instance and 201 synthetic rows *)

Lemma load_data_rows_aligned_witness :
  exists df b, load_data (constant_provider (synthetic_rows 200)) "BBNI.JK" = Ok df /\ b ∈ df /\
  exists i y, (199 <= i)%nat /\ synthetic_rows 200 !! i = Some y /\
    Date b = Yf.Date y /\ Yf.Open y = Some (Open b) /\ Yf.High y = Some (High b) /\
    Yf.Low y = Some (Low b) /\ Yf.Close y = Some (Close b) /\
    col_at (ema 20 (map Yf.Close (synthetic_rows 200))) i = Some (EMA20 b) /\
    col_at (ema 50 (map Yf.Close (synthetic_rows 200))) i = Some (EMA50 b) /\
    col_at (ema 200 (map Yf.Close (synthetic_rows 200))) i = Some (EMA200 b) /\
    col_at (rsi 14 (map Yf.Close (synthetic_rows 200))) i = Some (RSI14 b) /\
    col_at (atr (map Yf.High (synthetic_rows 200)) (map Yf.Low (synthetic_rows 200))
                (map Yf.Close (synthetic_rows 200)) 14) i = Some (ATR14 b).
Proof.
  eexists. eexists. split; [vm_compute; reflexivity |]. split; [apply list_elem_of_here |].
  eapply (load_data_rows_aligned (constant_provider (synthetic_rows 200)) "BBNI.JK"
            (synthetic_rows 200));
    [reflexivity | vm_compute; reflexivity | apply list_elem_of_here].
Defined.


Lemma load_data_short_history_empty_witness :
  load_data (constant_provider (synthetic_rows 150)) "BBNI.JK" = Ok [].
Proof.
  apply (load_data_short_history_empty _ _ (synthetic_rows 150));
    [reflexivity | discriminate | vm_compute; lia].
Defined.

Lemma load_data_plan_sane_witness :
  exists df p, load_data (constant_provider (synthetic_rows 200)) "BBNI.JK" = Ok df /\
    trade_plan df = Ok p /\ Forall wf_bar df /\
    (cutloss p < support p /\ support p <= close p <= resistance p /\ tp2 p <= resistance p)%Q.
Proof.
  eexists _, _. split; [vm_compute; reflexivity |]. split; [vm_compute; reflexivity |].
  eapply (load_data_plan_sane (constant_provider (synthetic_rows 200)) "BBNI.JK");
    [reflexivity | apply synthetic_rows_sane | vm_compute; reflexivity | vm_compute; reflexivity].
Defined.

Lemma load_data_ema_between_witness :
  exists df p, load_data (constant_provider (synthetic_rows 200)) "BBNI.JK" = Ok df /\
    trade_plan df = Ok p /\ reco p = RECO_BUY /\
    Forall (fun b => 98 <= EMA20 b <= 110 /\ 98 <= EMA50 b <= 110 /\ 98 <= EMA200 b <= 110)%Q df /\
    (trade_plan df = Ok p -> reco p = RECO_BUY -> (98 <= entry p <= 110)%Q).
Proof.
  eexists _, _. split; [vm_compute; reflexivity |]. split; [vm_compute; reflexivity |].
  split; [reflexivity |].
  eapply (load_data_ema_between (constant_provider (synthetic_rows 200)) "BBNI.JK");
    [reflexivity | apply synthetic_rows_closes | vm_compute; reflexivity].
Defined.

Lemma load_data_length_bound_witness :
  exists df, load_data (constant_provider (synthetic_rows 200)) "BBNI.JK" = Ok df /\
    (length df <= length (synthetic_rows 200) - 199)%nat.
Proof.
  eexists. split; [vm_compute; reflexivity |].
  apply (load_data_length_bound (constant_provider (synthetic_rows 200)) "BBNI.JK");
    [reflexivity | vm_compute; reflexivity].
Defined.

End Loader.
