(* ===== verification/News.v ===== *)
(** * The news fetcher, [get_news] (src/app.py, lines 62-66)

    [get_news ticker n] strips [".JK"] from the ticker with [str.replace],
    builds the Google News RSS URL, lets feedparser parse it and returns
    the first [n] entries ([entries[:n]], Python slicing, [n] possibly
    negative) as title/link pairs, a missing field read as [""] by
    [e.get(key, "")].  feedparser is not code of this repository: its
    answer for a URL is the section variable [parse], a list of entries,
    each entry the key/value pairs of a [FeedParserDict].

    The theorems: for [n >= 0] the result is the items of the first [n]
    entries, [min n (length entries)] of them, in feed order; a missing title or link is the empty string; the spec's
    12-entry example; the query of a normalized ticker is the user's
    code; and the query is put into the URL without URL-encoding. *)

From S2P Require Import Prelude PyStr Ticker.
From Stdlib Require Import Ascii String ZArith.

Module News.
Import PyStr.

Local Open Scope string_scope.

(** A feed entry: the key/value pairs of a [FeedParserDict]. *)
Definition Entry := list (string * string).

(** [e.get(key, default)]. *)
Definition dict_get (e : Entry) (key default : string) : string :=
  match List.find (fun kv => String.eqb kv.1 key) e with
  | Some kv => kv.2
  | None => default
  end.

(** The dictionaries of the returned list. *)
Record NewsItem := { title : string; link : string }.

(** Line 63: [q = ticker.replace(".JK", "")]. *)
Definition news_query (ticker : string) : string := replace ".JK" "" ticker.

(** Line 64: the f-string of the URL. *)
Definition news_url (q : string) : string :=
  "https://news.google.com/rss/search?q=" ++ q ++ "+saham+OR+stock&hl=id&gl=ID&ceid=ID:id".

(** [l[:n]]: a negative [n] counts from the end, and the bound is clamped
    to [0, len(l)]. *)
Definition py_slice_to {A} (n : Z) (l : list A) : list A :=
  take (Z.to_nat (if Z.ltb n 0 then Z.of_nat (List.length l) + n else n)%Z) l.

(** Line 66: one entry as a title/link pair. *)
Definition to_item (e : Entry) : NewsItem :=
  {| title := dict_get e "title" ""; link := dict_get e "link" "" |}.

(** The number of characters [c] in [s]. *)
Definition count_char (c : ascii) (s : string) : nat :=
  count_occ ascii_dec (list_ascii_of_string s) c.

Section WithFeed.
(** [feedparser.parse(url).entries] *)
Variable parse : string -> list Entry.

Definition get_news (ticker : string) (n : Z) : list NewsItem :=
  let q := news_query ticker in
  let url := news_url q in
  let entries := parse url in
  map to_item (py_slice_to n entries).

End WithFeed.

(** Example feeds: [k] entries with a title and a link each. *)
Definition sample_entry (k : nat) : Entry :=
  [("title", "Berita " ++ String (ascii_of_nat (48 + k)) ""); ("link", "https://example.com/n")].

Definition sample_feed (k : nat) : list Entry := map sample_entry (seq 0 k).

(** ** Lemmas *)

Lemma length_py_slice_to_nonneg {A} (n : Z) (l : list A) :
  (0 <= n)%Z -> List.length (py_slice_to n l) = Nat.min (Z.to_nat n) (List.length l).
Proof.
  intros Hn. unfold py_slice_to. destruct (Z.ltb_spec n 0); [lia |].
  apply length_take.
Qed.

Lemma lookup_py_slice_to {A} (n : Z) (l : list A) i x :
  py_slice_to n l !! i = Some x -> l !! i = Some x.
Proof. unfold py_slice_to. intros H. eapply lookup_take_Some. exact H. Qed.

Lemma count_char_app c s1 s2 : count_char c (s1 ++ s2) = (count_char c s1 + count_char c s2)%nat.
Proof.
  unfold count_char. induction s1 as [|a s1 IH]; [done |].
  rewrite append_cons. cbn [list_ascii_of_string count_occ]. rewrite IH. by destruct (ascii_dec a c).
Qed.

Lemma dict_get_missing e key d :
  (forall kv, kv ∈ e -> kv.1 <> key) -> dict_get e key d = d.
Proof.
  intros H. unfold dict_get. destruct (List.find _ e) as [kv|] eqn:E; [| done].
  apply List.find_some in E as [Hin Heq]. apply String.eqb_eq in Heq.
  exfalso. apply (H kv); [by apply list_elem_of_In | done].
Qed.

(** ** Properties *)

(** C20: for [n >= 0], [get_news] returns the items of the first [n]
    feed entries, in feed order: [min n (number of entries)] of them. *)
Theorem get_news_first_items parse t (n : Z) :
  (0 <= n)%Z ->
  get_news parse t n = map to_item (take (Z.to_nat n) (parse (news_url (news_query t)))) /\
  List.length (get_news parse t n) = Nat.min (Z.to_nat n) (List.length (parse (news_url (news_query t)))).
Proof.
  intros Hn. split.
  - unfold get_news, py_slice_to. by destruct (Z.ltb_spec n 0); [lia |].
  - unfold get_news. rewrite length_map. by apply length_py_slice_to_nonneg.
Qed.

(** The [i]-th item is the [i]-th entry of the feed, for any [n], also
    a negative one: the items come in feed order, from its start. *)
Theorem get_news_in_feed_order parse t n i item :
  get_news parse t n !! i = Some item ->
  exists e, parse (news_url (news_query t)) !! i = Some e /\ item = to_item e.
Proof.
  unfold get_news. rewrite list_lookup_fmap.
  destruct (py_slice_to n _ !! i) as [e|] eqn:E; [| discriminate].
  intros [= <-]. exists e. split; [by eapply lookup_py_slice_to | done].
Qed.

(** C22: an entry without a title (resp. a link) gives an item whose
    title (resp. link) is the empty string, not an error. *)
Theorem to_item_missing_fields e :
  ((forall kv, kv ∈ e -> kv.1 <> "title") -> title (to_item e) = "") /\
  ((forall kv, kv ∈ e -> kv.1 <> "link") -> link (to_item e) = "").
Proof. split; intros H; by apply dict_get_missing. Qed.

(** The spec's example: a feed of 12 entries with [n = 8] gives
    exactly the first 8, in order. *)
Theorem get_news_spec_example :
  List.length (get_news (fun _ => sample_feed 12) "BBNI.JK" 8) = 8%nat /\
  get_news (fun _ => sample_feed 12) "BBNI.JK" 8 = map to_item (take 8 (sample_feed 12)).
Proof. split; reflexivity. Qed.

(** C23: for user input without a dot, the news query of the normalized
    ticker is the trimmed, upper-cased input: [replace] removes exactly
    the suffix that [normalize_ticker] appended. *)
Theorem news_query_normalized k :
  py_in "." (upper (strip k)) = false ->
  news_query (Ticker.normalize_ticker k) = upper (strip k).
Proof.
  intros H. unfold news_query, Ticker.normalize_ticker. rewrite H.
  by apply replace_suffix_no_dot.
Qed.

(** C24: the query is put into the URL without URL-encoding: for every
    input without a dot, each ['&'] of the trimmed, upper-cased input
    becomes one more parameter separator of the request, which has
    exactly 3 more ['&'] than the input (an encoded query would leave the
    3 of the fixed parameters only); "bbca&hl=en" adds [HL=EN]. *)
Theorem news_url_not_encoded k :
  py_in "." (upper (strip k)) = false ->
  count_char "&" (news_url (news_query (Ticker.normalize_ticker k))) =
    (count_char "&" (upper (strip k)) + 3)%nat.
Proof.
  intros H. unfold news_query, Ticker.normalize_ticker. rewrite H, replace_suffix_no_dot by exact H.
  unfold news_url. rewrite !count_char_app.
  change (count_char "&" "https://news.google.com/rss/search?q=") with 0%nat.
  change (count_char "&" "+saham+OR+stock&hl=id&gl=ID&ceid=ID:id") with 3%nat. lia.
Qed.

(** ** Witnesses *)

Lemma get_news_first_items_witness :
  get_news (fun _ => sample_feed 12) "BBNI.JK" 8 =
    map to_item (take (Z.to_nat 8) ((fun _ => sample_feed 12) (news_url (news_query "BBNI.JK")))) /\
  List.length (get_news (fun _ => sample_feed 12) "BBNI.JK" 8) =
    Nat.min (Z.to_nat 8) (List.length ((fun _ => sample_feed 12) (news_url (news_query "BBNI.JK")))).
Proof. apply get_news_first_items. lia. Defined.

Lemma to_item_missing_fields_witness : title (to_item [("link", "https://example.com")]) = "".
Proof.
  apply (proj1 (to_item_missing_fields [("link", "https://example.com")])).
  intros kv Hkv. apply elem_of_cons in Hkv as [-> | Hkv]; [discriminate | by apply elem_of_nil in Hkv].
Defined.

Lemma news_url_not_encoded_witness :
  count_char "&" (news_url (news_query (Ticker.normalize_ticker "bbca&hl=en"))) =
    (count_char "&" (upper (strip "bbca&hl=en")) + 3)%nat.
Proof. apply news_url_not_encoded. reflexivity. Defined.

Lemma news_query_normalized_witness :
  news_query (Ticker.normalize_ticker "  bbni ") = upper (strip "  bbni ").
Proof. apply news_query_normalized. reflexivity. Defined.

End News.
