(* ===== verification/Cache.v ===== *)
(** * The memoisation of [load_data]: [@st.cache_data(ttl=60)] (src/app.py, line 16)

    Streamlit's cache is not code of this repository; what the decorator
    does is modelled from its documented behaviour, which the spec repeats
    (sections 4.2 and 9): a store from the argument (the ticker) to the
    returned table and the time it was stored; a call within [TTL = 60]
    seconds of the stored time returns the stored table without calling
    the function; otherwise the function runs, and its result is stored
    when it returns normally.  An exception is not stored, so the next
    call runs the function again.

    The state [State] holds the store, a [gmap string Entry], and the log
    [calls] of the tickers for which [load_data] (hence the provider) ran.
    Time is an integer number of seconds.  The provider's answer depends
    on the time of the request ([history now]): the market moves, so a
    cached table can differ from what [load_data] would return now.

    The theorems: a hit within the TTL returns the stored table and
    changes nothing; the cache refines [load_data] up to a staleness of
    less than [TTL] seconds and keeps its invariants (every entry is what
    [load_data] returned at its stored time, no entry is from the
    future); errors are not cached; two requests within the TTL after a
    successful fetch make one provider call and return the first table;
    an expired entry is fetched again. *)

From S2P Require Import Prelude Frame Indicators Loader.
From stdpp Require Import gmap.
From Stdlib Require Import ZArith.

Module Cache.
Import Frame Loader.

Record Entry := { stored_at : Z; value : list Bar }.

Record State := { store : gmap string Entry; calls : list string }.

Definition TTL : Z := 60.

Definition empty_state : State := {| store := ∅; calls := [] |}.

(** An entry is served while it is younger than the TTL. *)
Definition is_fresh (now : Z) (e : Entry) : bool := Z.ltb (now - stored_at e) TTL.

Section WithProvider.
Context `{TA : Indicators}.
Variable history : Z -> string -> PyResult (option (list Yf.Row)).

(** A miss: run [load_data], log the call, store a normal result. *)
Definition cache_miss (st : State) (now : Z) (t : string) : State * PyResult (list Bar) :=
  match load_data (history now) t with
  | Ok df => ({| store := <[t := {| stored_at := now; value := df |}]> (store st);
                 calls := calls st ++ [t] |}, Ok df)
  | Err e => ({| store := store st; calls := calls st ++ [t] |}, Err e)
  end.

(** [load_data(t)] through the cache, at time [now]. *)
Definition cached_load_data (st : State) (now : Z) (t : string) : State * PyResult (list Bar) :=
  match store st !! t with
  | Some e => if is_fresh now e then (st, Ok (value e)) else cache_miss st now t
  | None => cache_miss st now t
  end.

(** Every stored table is what [load_data] returned for its ticker at the
    time it was stored. *)
Definition coherent (st : State) : Prop :=
  forall t e, store st !! t = Some e -> load_data (history (stored_at e)) t = Ok (value e).

(** No entry was stored after [now]: the invariant of a clock that does
    not go back. *)
Definition stored_before (now : Z) (st : State) : Prop :=
  forall t e, store st !! t = Some e -> (stored_at e <= now)%Z.

End WithProvider.

(** Example states: the synthetic history of 201 rows and the state after
    a successful fetch of "BBNI.JK" at time 0. *)
Definition sample_history : Z -> string -> PyResult (option (list Yf.Row)) :=
  fun _ => constant_provider (synthetic_rows 200).

Definition after_fetch : State := fst (cached_load_data sample_history empty_state 0 "BBNI.JK").

(** A provider whose answer changes at time 30: one more daily bar. *)
Definition moving_history (now : Z) : string -> PyResult (option (list Yf.Row)) :=
  constant_provider (synthetic_rows (if Z.ltb now 30 then 200 else 201)).

(** ** Lemmas *)

Section Lemmas.
Context `{TA : Indicators}.
Variable history : Z -> string -> PyResult (option (list Yf.Row)).

(** Without a fresh entry the cache behaves as a miss. *)
Lemma cached_load_data_miss st now t :
  (forall e, store st !! t = Some e -> is_fresh now e = false) ->
  cached_load_data history st now t = cache_miss history st now t.
Proof.
  intros H. unfold cached_load_data. destruct (store st !! t) as [e|] eqn:E; [| done].
  by rewrite (H e eq_refl).
Qed.

Lemma cache_miss_result st now t :
  snd (cache_miss history st now t) = load_data (history now) t.
Proof. unfold cache_miss. by destruct (load_data (history now) t). Qed.

Lemma cache_miss_calls st now t : calls (fst (cache_miss history st now t)) = calls st ++ [t].
Proof. unfold cache_miss. by destruct (load_data (history now) t). Qed.

(** A request logs at most one provider call, for its own ticker. *)
Lemma cached_load_data_calls st now t :
  calls (fst (cached_load_data history st now t)) = calls st \/
  calls (fst (cached_load_data history st now t)) = calls st ++ [t].
Proof.
  unfold cached_load_data. destruct (store st !! t) as [e|]; [destruct (is_fresh now e) |].
  - by left.
  - right. apply cache_miss_calls.
  - right. apply cache_miss_calls.
Qed.

(** A request changes the store at its own ticker only. *)
Lemma cached_load_data_store_other st now t u :
  u <> t -> store (fst (cached_load_data history st now t)) !! u = store st !! u.
Proof.
  intros Hne. unfold cached_load_data, cache_miss.
  destruct (store st !! t); [destruct (is_fresh now _) |]; [done | ..];
    destruct (load_data (history now) t); simpl; by rewrite ?lookup_insert_ne.
Qed.

(** A miss answers with the provider's current table and keeps both
    invariants. *)
Lemma cache_miss_refines st now t :
  coherent history st -> stored_before now st ->
  snd (cache_miss history st now t) = load_data (history now) t /\
  coherent history (fst (cache_miss history st now t)) /\
  stored_before now (fst (cache_miss history st now t)).
Proof.
  unfold cache_miss, coherent, stored_before. intros Hc Hb.
  destruct (load_data (history now) t) as [df|e] eqn:E; simpl; [| done].
  split; [done | split]; intros k en; rewrite lookup_insert; case_decide; subst;
    [by intros [= <-] | apply Hc | intros [= <-]; simpl; lia | apply Hb].
Qed.

(** A request, hit or miss, keeps both invariants. *)
Lemma cached_load_data_inv st now t :
  coherent history st -> stored_before now st ->
  coherent history (fst (cached_load_data history st now t)) /\
  stored_before now (fst (cached_load_data history st now t)).
Proof.
  intros Hc Hb. unfold cached_load_data.
  destruct (store st !! t) as [e|]; [destruct (is_fresh now e) |]; [done | ..];
    apply (cache_miss_refines st now t Hc Hb).
Qed.

Lemma stored_before_mono now now' st :
  (now <= now')%Z -> stored_before now st -> stored_before now' st.
Proof. intros Hle Hb t e He. specialize (Hb t e He). lia. Qed.

End Lemmas.

(** ** Properties *)

Section Properties.
Context `{TA : Indicators}.
Variable history : Z -> string -> PyResult (option (list Yf.Row)).

(** C25: a request within the TTL of a stored entry returns the stored
    table and leaves the state, and so the provider-call log, unchanged. *)
Theorem cache_hit st now t e :
  store st !! t = Some e -> (now - stored_at e < TTL)%Z ->
  cached_load_data history st now t = (st, Ok (value e)).
Proof.
  intros He Hfresh. unfold cached_load_data, is_fresh. rewrite He.
  by destruct (Z.ltb_spec (now - stored_at e) TTL); [| lia].
Qed.

(** C26: refinement with bounded staleness: on a state whose entries are
    what [load_data] returned when they were stored, none of them later
    than [now], the cached call returns what the uncached [load_data]
    returned at some time in the last [TTL] seconds, and both invariants
    still hold. *)
Theorem cached_load_data_refines st now t :
  coherent history st -> stored_before now st ->
  (exists fetched, (now - TTL < fetched <= now)%Z /\
     snd (cached_load_data history st now t) = load_data (history fetched) t) /\
  coherent history (fst (cached_load_data history st now t)) /\
  stored_before now (fst (cached_load_data history st now t)).
Proof.
  intros Hc Hb. unfold cached_load_data.
  destruct (store st !! t) as [e|] eqn:E; [destruct (is_fresh now e) eqn:Hf |].
  - split; [| done]. exists (stored_at e). apply Z.ltb_lt in Hf.
    split; [specialize (Hb t e E); lia | symmetry; by apply Hc].
  - destruct (cache_miss_refines history st now t Hc Hb) as (Hr & ? & ?).
    split; [exists now; split; [unfold TTL; lia | done] | done].
  - destruct (cache_miss_refines history st now t Hc Hb) as (Hr & ? & ?).
    split; [exists now; split; [unfold TTL; lia | done] | done].
Qed.

(** C27: an exception is not cached: without a fresh entry, a failing
    [load_data] logs a provider call, leaves the store unchanged and
    raises; the next request calls the provider again. *)
Theorem cache_errors_not_cached st now t e :
  (forall en, store st !! t = Some en -> is_fresh now en = false) ->
  load_data (history now) t = Err e ->
  cached_load_data history st now t = ({| store := store st; calls := calls st ++ [t] |}, Err e).
Proof.
  intros Hmiss He. rewrite cached_load_data_miss by exact Hmiss.
  unfold cache_miss. by rewrite He.
Qed.

(** C28: two requests for the same ticker, the second within the TTL of
    the first, make exactly one provider call when the first succeeds,
    and both return the first table, whatever the provider would answer
    at the time of the second. *)
Theorem cache_one_call_within_ttl st now now' t df :
  (forall en, store st !! t = Some en -> is_fresh now en = false) ->
  load_data (history now) t = Ok df -> (now <= now' < now + TTL)%Z ->
  let '(st1, r1) := cached_load_data history st now t in
  let '(st2, r2) := cached_load_data history st1 now' t in
  r1 = Ok df /\ r2 = Ok df /\ calls st2 = calls st ++ [t].
Proof.
  intros Hmiss Hok Hnow. rewrite cached_load_data_miss by exact Hmiss.
  unfold cache_miss. rewrite Hok. unfold cached_load_data, is_fresh. simpl.
  rewrite lookup_insert_eq. simpl.
  by destruct (Z.ltb_spec (now' - now) TTL); [| lia].
Qed.

(** C29: an entry at least TTL seconds old is not served: the provider is
    called again and the answer is its current one. *)
Theorem cache_expired_refetch st now t e :
  store st !! t = Some e -> (TTL <= now - stored_at e)%Z ->
  calls (fst (cached_load_data history st now t)) = calls st ++ [t] /\
  snd (cached_load_data history st now t) = load_data (history now) t.
Proof.
  intros He Hold. rewrite cached_load_data_miss.
  - split; [apply cache_miss_calls | apply cache_miss_result].
  - intros en Hen. rewrite He in Hen. injection Hen as <-. unfold is_fresh.
    destruct (Z.ltb_spec (now - stored_at e) TTL); [lia | done].
Qed.

End Properties.

(** ** Witnesses, with the TA-Lib instance and the synthetic history *)

Lemma cache_hit_witness :
  exists e, store after_fetch !! "BBNI.JK"%string = Some e /\
    cached_load_data sample_history after_fetch 30 "BBNI.JK" = (after_fetch, Ok (value e)).
Proof.
  eexists. split; [vm_compute; reflexivity |].
  apply cache_hit; [vm_compute; reflexivity | vm_compute; reflexivity].
Defined.

Lemma cached_load_data_refines_witness :
  (exists fetched, (0 - TTL < fetched <= 0)%Z /\
     snd (cached_load_data moving_history empty_state 0 "BBNI.JK") =
       load_data (moving_history fetched) "BBNI.JK") /\
  coherent moving_history (fst (cached_load_data moving_history empty_state 0 "BBNI.JK")) /\
  stored_before 0 (fst (cached_load_data moving_history empty_state 0 "BBNI.JK")).
Proof.
  apply cached_load_data_refines; intros t e H; vm_compute in H; discriminate.
Defined.

Lemma cache_errors_not_cached_witness :
  cached_load_data (fun _ _ => Ok None) empty_state 0 "XXXX.JK" =
  ({| store := store empty_state; calls := calls empty_state ++ ["XXXX.JK"%string] |},
   Err (ValueError NO_DATA_MSG)).
Proof.
  apply cache_errors_not_cached; [intros en H; vm_compute in H; discriminate | reflexivity].
Defined.

(** The second request, at time 59, gets the table of time 0 although the
    provider has a new bar since time 30. *)
Lemma cache_one_call_within_ttl_witness :
  exists df, load_data (moving_history 0) "BBNI.JK" = Ok df /\
  load_data (moving_history 59) "BBNI.JK" <> Ok df /\
  let '(st1, r1) := cached_load_data moving_history empty_state 0 "BBNI.JK" in
  let '(st2, r2) := cached_load_data moving_history st1 59 "BBNI.JK" in
  r1 = Ok df /\ r2 = Ok df /\ calls st2 = calls empty_state ++ ["BBNI.JK"%string].
Proof.
  eexists. split; [vm_compute; reflexivity |].
  split; [intros H; vm_compute in H; congruence |].
  apply cache_one_call_within_ttl;
    [intros en H; vm_compute in H; discriminate | vm_compute; reflexivity | decide_concrete].
Defined.

Lemma cache_expired_refetch_witness :
  exists e, store after_fetch !! "BBNI.JK"%string = Some e /\
  calls (fst (cached_load_data sample_history after_fetch 60 "BBNI.JK")) =
    calls after_fetch ++ ["BBNI.JK"%string] /\
  snd (cached_load_data sample_history after_fetch 60 "BBNI.JK") = load_data (sample_history 60) "BBNI.JK".
Proof.
  eexists. split; [vm_compute; reflexivity |].
  eapply (cache_expired_refetch sample_history after_fetch 60 "BBNI.JK");
    [vm_compute; reflexivity | decide_concrete].
Defined.

End Cache.
