(* ===== verification/Format.v ===== *)
(** * The number format of the page, [f"{x:,.0f}"] (src/app.py, lines 79-88)

    Every price of the plan is shown with the format spec [",.0f"]: the
    value rounded to an integer, half to even (Python rounds the exact
    value of the float), written in decimal with a comma between groups
    of three digits, and a minus sign when the value is negative, also
    when it rounds to zero ([f"{-0.4:,.0f}"] is ["-0"]).

    [format_thousands] builds the string; [parse_grouped] reads such a
    string back; [well_formed_number] is the shape of such a string, a
    boolean grammar.  The theorems: every output has the grammar's shape
    (its type); reading back gives the rounded value (a round trip);
    rounding moves a value by at most one half and sends ties to the even
    neighbour; and every value in [[-1/2, 0)] is shown as ["-0"]. *)

From S2P Require Import Prelude.
From Stdlib Require Import Ascii String ZArith Qround Qabs.

Module Format.

Local Open Scope Z_scope.

(** Round half to even. *)
Definition round_half_even (x : Q) : Z :=
  let f := Qfloor x in
  let r := (x - inject_Z f)%Q in
  if Qltb r (1 # 2) then f
  else if Qltb (1 # 2) r then f + 1
  else if Z.even f then f else f + 1.

Definition digit_char (d : Z) : ascii := ascii_of_nat (48 + Z.to_nat d).

(** The decimal digits of [n >= 0], least significant first; [fuel]
    bounds the number of digits. *)
Fixpoint digits_rev_go (fuel : nat) (n : Z) : list ascii :=
  match fuel with
  | O => []
  | S f => digit_char (n mod 10) :: (if n <? 10 then [] else digits_rev_go f (n / 10))
  end.

(** The number of binary digits bounds the number of decimal ones. *)
Definition digits_rev (n : Z) : list ascii := digits_rev_go (S (Z.to_nat (Z.log2 n))) n.

(** Insert a comma after every third digit, counting from the least
    significant one, when more digits follow. *)
Fixpoint group_rev (ds : list ascii) : list ascii :=
  match ds with
  | a :: b :: c :: ((_ :: _) as rest) => a :: b :: c :: ","%char :: group_rev rest
  | _ => ds
  end.

Definition format_thousands (x : Q) : string :=
  let n := round_half_even (Qabs x) in
  (if Qltb x 0 then "-" else "") ++
  string_of_list_ascii (rev (group_rev (digits_rev n))).

(** ** Reading a formatted number back *)

Definition digit_value (c : ascii) : Z := Z.of_nat (nat_of_ascii c) - 48.

(** The digits, most significant first, with the commas skipped. *)
Definition parse_digits (cs : list ascii) : Z :=
  fold_left (fun acc c => if ascii_dec c ","%char then acc else 10 * acc + digit_value c) cs 0.

Definition parse_grouped (s : string) : Z :=
  match s with
  | String c s' =>
      if ascii_dec c "-"%char then - parse_digits (list_ascii_of_string s')
      else parse_digits (list_ascii_of_string s)
  | EmptyString => 0
  end.

(** ** The shape of a formatted number *)

Definition is_digit (c : ascii) : bool :=
  Nat.leb 48 (nat_of_ascii c) && Nat.leb (nat_of_ascii c) 57.

(** Read least significant first: groups of three digits separated by
    commas, the last group of one to three digits. *)
Fixpoint grouped_rev_ok (l : list ascii) : bool :=
  match l with
  | a :: b :: c :: s :: ((_ :: _) as rest) =>
      is_digit a && is_digit b && is_digit c && bool_decide (s = ","%char) && grouped_rev_ok rest
  | _ => bool_decide (1 <= List.length l <= 3)%nat && forallb is_digit l
  end.

(** [-?d{1,3}(,ddd)*]: digit groups, with or without a leading minus. *)
Definition well_formed_number (s : string) : bool :=
  let l := list_ascii_of_string s in
  grouped_rev_ok (rev l) ||
  match l with
  | c :: r => bool_decide (c = "-"%char) && grouped_rev_ok (rev r)
  | [] => false
  end.

(** ** Lemmas *)

(** The value of a list of digits read least significant first. *)
Definition value_rev (ds : list ascii) : Z :=
  fold_right (fun c acc => if ascii_dec c ","%char then acc else 10 * acc + digit_value c) 0 ds.

Lemma parse_digits_rev ds : parse_digits (rev ds) = value_rev ds.
Proof. unfold parse_digits, value_rev. by rewrite <- List.fold_left_rev_right, rev_involutive. Qed.

Lemma digit_char_spec d :
  0 <= d < 10 -> digit_value (digit_char d) = d /\ digit_char d <> ","%char /\ digit_char d <> "-"%char.
Proof.
  intros Hd. assert (d = 0 \/ d = 1 \/ d = 2 \/ d = 3 \/ d = 4 \/ d = 5 \/ d = 6 \/ d = 7 \/ d = 8 \/ d = 9)
    as Hc by lia.
  repeat destruct Hc as [-> | Hc]; subst; (split; [reflexivity | split; discriminate]).
Qed.

(** [group_rev] only adds commas, which reading skips. *)
Lemma value_rev_group ds : value_rev (group_rev ds) = value_rev ds.
Proof.
  induction ds as [ds IH] using (induction_ltof1 _ (@List.length ascii)).
  destruct ds as [|a [|b [|c [|d rest]]]]; try reflexivity.
  change (group_rev (a :: b :: c :: d :: rest))
    with (a :: b :: c :: ","%char :: group_rev (d :: rest)).
  cbn [value_rev fold_right]. fold (value_rev (group_rev (d :: rest))).
  fold (value_rev (d :: rest)). rewrite IH; [| unfold ltof; simpl; lia].
  reflexivity.
Qed.

Lemma elem_of_group_rev ds c : c ∈ group_rev ds -> c = ","%char \/ c ∈ ds.
Proof.
  induction ds as [ds IH] using (induction_ltof1 _ (@List.length ascii)).
  destruct ds as [|a [|b [|c' [|d rest]]]]; try (intros; by right).
  change (group_rev (a :: b :: c' :: d :: rest))
    with (a :: b :: c' :: ","%char :: group_rev (d :: rest)).
  rewrite !elem_of_cons. intros [-> | [-> | [-> | [-> | H]]]]; try (right; set_solver); [by left |].
  apply IH in H as [H | H]; [by left | right; set_solver | unfold ltof; simpl; lia].
Qed.

(** Enough fuel gives back the number. *)
Lemma value_rev_digits_go fuel n :
  0 <= n < 10 ^ Z.of_nat fuel -> value_rev (digits_rev_go fuel n) = n.
Proof.
  revert n. induction fuel as [|f IH]; intros n Hn; simpl in Hn.
  - simpl. lia.
  - rewrite Nat2Z.inj_succ, Z.pow_succ_r in Hn by lia. cbn [digits_rev_go].
    pose proof (Z.mod_pos_bound n 10 ltac:(lia)) as Hm.
    destruct (digit_char_spec (n mod 10) Hm) as (Hv & Hc & _).
    cbn [value_rev fold_right]. destruct (ascii_dec _ _) as [E | _]; [done |].
    destruct (Z.ltb_spec n 10).
    + simpl. rewrite Hv. rewrite Z.mod_small; lia.
    + fold (value_rev (digits_rev_go f (n / 10))). rewrite IH, Hv.
      * pose proof (Z.div_mod n 10). lia.
      * split; [apply Z.div_pos; lia | apply Z.div_lt_upper_bound; lia].
Qed.

(** The fuel of [digits_rev] covers every digit: [n < 10 ^ (1 + log2 n)]. *)
Lemma digits_rev_fuel_bound n : 0 <= n -> n < 10 ^ Z.of_nat (S (Z.to_nat (Z.log2 n))).
Proof.
  intros Hn. rewrite Nat2Z.inj_succ, Z2Nat.id by apply Z.log2_nonneg.
  destruct (Z.eq_dec n 0) as [-> | Hne]; [simpl; lia |].
  destruct (Z.log2_spec n) as [_ H2]; [lia |].
  eapply Z.lt_le_trans; [exact H2 |]. apply Z.pow_le_mono_l. lia.
Qed.

Lemma value_rev_digits n : 0 <= n -> value_rev (digits_rev n) = n.
Proof.
  intros Hn. apply value_rev_digits_go. split; [done |]. by apply digits_rev_fuel_bound.
Qed.


Lemma is_digit_digit_char d : 0 <= d < 10 -> is_digit (digit_char d) = true.
Proof.
  intros Hd. unfold is_digit, digit_char. rewrite nat_ascii_embedding by lia.
  apply andb_true_intro. split; apply Nat.leb_le; lia.
Qed.

Lemma is_digit_not_sep c : is_digit c = true -> c <> ","%char /\ c <> "-"%char.
Proof. intros H. split; intros ->; discriminate. Qed.

(** Every character of the digits is a digit. *)
Lemma elem_of_digits_go fuel n c : c ∈ digits_rev_go fuel n -> is_digit c = true.
Proof.
  revert n. induction fuel as [|f IH]; intros n; simpl; [intros H; by apply elem_of_nil in H |].
  rewrite elem_of_cons. intros [-> | H].
  - apply is_digit_digit_char, Z.mod_pos_bound. lia.
  - destruct (n <? 10); [by apply elem_of_nil in H | by eapply IH].
Qed.

Lemma group_rev_head d rest : exists l, group_rev (d :: rest) = d :: l.
Proof. destruct rest as [|e [|f [|g r]]]; eexists; reflexivity. Qed.

(** Grouping a non-empty list of digits gives well-formed groups. *)
Lemma grouped_rev_ok_group ds :
  ds <> [] -> (forall c, c ∈ ds -> is_digit c = true) -> grouped_rev_ok (group_rev ds) = true.
Proof.
  induction ds as [ds IH] using (induction_ltof1 _ (@List.length ascii)).
  intros Hne Hd. destruct ds as [|a [|b [|c [|d rest]]]]; [done | ..];
    try (simpl; rewrite !Hd by set_solver; reflexivity).
  change (group_rev (a :: b :: c :: d :: rest))
    with (a :: b :: c :: ","%char :: group_rev (d :: rest)).
  destruct (group_rev_head d rest) as [l El]. rewrite El.
  change (grouped_rev_ok (a :: b :: c :: ","%char :: d :: l)) with
    (is_digit a && is_digit b && is_digit c && bool_decide (","%char = ","%char) &&
     grouped_rev_ok (d :: l)).
  rewrite <- El, !Hd, IH by (unfold ltof; simpl; lia || done || set_solver). done.
Qed.

Lemma digits_rev_nonempty n : digits_rev n <> [].
Proof. unfold digits_rev. simpl. discriminate. Qed.

Lemma round_half_even_nonneg x : (0 <= x)%Q -> 0 <= round_half_even x.
Proof.
  intros Hx. pose proof (Qfloor_resp_le 0 x Hx) as Hf. change (Qfloor 0) with 0 in Hf.
  unfold round_half_even. qcase; try destruct (Z.even _); lia.
Qed.

(** The two possible results of rounding, with the distance to the floor. *)
Lemma round_half_even_cases x :
  (round_half_even x = Qfloor x /\ (x - inject_Z (Qfloor x) <= 1 # 2)%Q) \/
  (round_half_even x = Qfloor x + 1 /\ (1 # 2 <= x - inject_Z (Qfloor x))%Q).
Proof.
  unfold round_half_even. qcase; try (left; split; [done | lra]); try (right; split; [done | lra]).
  destruct (Z.even _); [left | right]; (split; [done | lra]).
Qed.

Lemma floor_bounds x : (inject_Z (Qfloor x) <= x < inject_Z (Qfloor x) + 1)%Q.
Proof.
  split; [apply Qfloor_le |]. rewrite <- (inject_Z_plus _ 1). apply Qlt_floor.
Qed.

(** The floor of a value in [[0, 1)] is 0. *)
Lemma floor_small q : (0 <= q < 1)%Q -> Qfloor q = 0.
Proof.
  intros Hq. destruct (floor_bounds q) as [H1 H2].
  assert (inject_Z (Qfloor q) < inject_Z 1 /\ inject_Z (-1) < inject_Z (Qfloor q))%Q as [Hu Hl]
    by (change (inject_Z 1) with 1%Q; change (inject_Z (-1)) with (-1)%Q; lra).
  rewrite <- Zlt_Qlt in Hu, Hl. lia.
Qed.

(** The floor of [k + 1/2] is [k]. *)
Lemma floor_half k : Qfloor (inject_Z k + (1 # 2)) = k.
Proof.
  destruct (floor_bounds (inject_Z k + (1 # 2))) as [H1 H2].
  assert (Qfloor (inject_Z k + (1 # 2)) <= k /\ k <= Qfloor (inject_Z k + (1 # 2))) as [? ?]; [| lia].
  rewrite !Zle_Qle. split.
  - assert (inject_Z (Qfloor (inject_Z k + (1 # 2))) < inject_Z (k + 1))%Q as Hlt
      by (rewrite inject_Z_plus; change (inject_Z 1) with 1%Q; lra).
    rewrite <- Zlt_Qlt in Hlt. rewrite <- Zle_Qle. lia.
  - assert (inject_Z k < inject_Z (Qfloor (inject_Z k + (1 # 2)) + 1))%Q as Hlt
      by (rewrite inject_Z_plus; change (inject_Z 1) with 1%Q; lra).
    rewrite <- Zlt_Qlt in Hlt. rewrite <- Zle_Qle. lia.
Qed.

(** ** Properties *)

(** C30: round trip: reading the formatted string back gives the sign of
    the value and the rounded magnitude ([-0] for a negative value that
    rounds to zero). *)
Theorem format_thousands_roundtrip x :
  parse_grouped (format_thousands x) =
  (if Qltb x 0 then - round_half_even (Qabs x) else round_half_even (Qabs x)).
Proof.
  unfold format_thousands.
  pose proof (round_half_even_nonneg (Qabs x) (Qabs_nonneg x)) as Hn.
  set (n := round_half_even (Qabs x)) in *.
  assert (parse_digits (rev (group_rev (digits_rev n))) = n) as Hval
    by (rewrite parse_digits_rev, value_rev_group; by apply value_rev_digits).
  assert (rev (group_rev (digits_rev n)) <> []) as Hne.
  { intros E. apply (f_equal (@rev ascii)) in E. rewrite rev_involutive in E.
    destruct (digits_rev n) as [|a ds] eqn:Ed; [by apply (digits_rev_nonempty n) |].
    destruct ds as [|b [|c' [|d ds]]]; discriminate. }
  assert (forall c, c ∈ rev (group_rev (digits_rev n)) -> c <> "-"%char) as Hdig.
  { intros c Hc%list_elem_of_In. apply in_rev, list_elem_of_In, elem_of_group_rev in Hc as [-> | Hc].
    - discriminate.
    - by apply elem_of_digits_go, is_digit_not_sep in Hc as [_ ?]. }
  remember (rev (group_rev (digits_rev n))) as L eqn:EL.
  destruct (Qltb x 0).
  - change ("-" ++ string_of_list_ascii L)%string with (String "-" (string_of_list_ascii L)).
    unfold parse_grouped. destruct (ascii_dec "-" "-") as [_ | ?]; [| congruence].
    by rewrite list_ascii_of_string_of_list_ascii, Hval.
  - change ("" ++ string_of_list_ascii L)%string with (string_of_list_ascii L).
    destruct L as [|c cs]; [done |].
    change (string_of_list_ascii (c :: cs)) with (String c (string_of_list_ascii cs)).
    unfold parse_grouped. destruct (ascii_dec c "-") as [Hm | _].
    + exfalso. apply (Hdig c); [by left | done].
    + change (String c (string_of_list_ascii cs)) with (string_of_list_ascii (c :: cs)).
      by rewrite list_ascii_of_string_of_list_ascii, Hval.
Qed.

(** C15: type of the output: every formatted number has the shape
    [-?d{1,3}(,ddd)*], an optional minus sign and then digit groups in
    which every group but the first has exactly three digits. *)
Theorem format_thousands_wellformed x : well_formed_number (format_thousands x) = true.
Proof.
  unfold format_thousands, well_formed_number.
  set (n := round_half_even (Qabs x)).
  assert (grouped_rev_ok (group_rev (digits_rev n)) = true) as Hg.
  { apply grouped_rev_ok_group; [apply digits_rev_nonempty | intros c; apply elem_of_digits_go]. }
  set (L := rev (group_rev (digits_rev n))).
  destruct (Qltb x 0).
  - change ("-" ++ string_of_list_ascii L)%string with (String "-" (string_of_list_ascii L)).
    change (list_ascii_of_string (String "-" (string_of_list_ascii L)))
      with ("-"%char :: list_ascii_of_string (string_of_list_ascii L)).
    rewrite list_ascii_of_string_of_list_ascii. unfold L. rewrite rev_involutive, Hg.
    apply orb_true_r.
  - change ("" ++ string_of_list_ascii L)%string with (string_of_list_ascii L).
    rewrite list_ascii_of_string_of_list_ascii. unfold L. by rewrite rev_involutive, Hg.
Qed.


(** C31: rounding moves a value by at most one half. *)
Theorem round_half_even_bound x :
  (- (1 # 2) <= x - inject_Z (round_half_even x) <= 1 # 2)%Q.
Proof.
  destruct (floor_bounds x).
  destruct (round_half_even_cases x) as [[-> ?] | [-> ?]];
    [| rewrite inject_Z_plus; change (inject_Z 1) with 1%Q]; split; lra.
Qed.

(** C32: ties go to the even neighbour: [k + 1/2] rounds to [k] or
    [k + 1], whichever is even. *)
Theorem round_half_even_ties k :
  Z.even (round_half_even (inject_Z k + (1 # 2))) = true /\
  (round_half_even (inject_Z k + (1 # 2)) = k \/ round_half_even (inject_Z k + (1 # 2)) = k + 1).
Proof.
  unfold round_half_even. rewrite floor_half.
  assert (inject_Z k + (1 # 2) - inject_Z k == 1 # 2)%Q as Hr by ring.
  qcase; try lra.
  destruct (Z.even k) eqn:Ek.
  - split; [done | by left].
  - split; [| by right]. rewrite Z.even_add, Ek. done.
Qed.

(** C33: small negative values are shown as [-0]: the sign is taken
    from the value before rounding, so every [x] in [[-1/2, 0)], whose
    magnitude rounds to 0 (half to even at [-1/2]), is shown as "-0". *)
Theorem format_thousands_minus_zero x :
  (- (1 # 2) <= x < 0)%Q -> format_thousands x = "-0".
Proof.
  intros Hx. unfold format_thousands.
  assert (Qabs x == - x)%Q as Ha by (apply Qabs_neg; lra).
  assert (round_half_even (Qabs x) = 0) as ->.
  { unfold round_half_even. rewrite (floor_small (Qabs x)) by lra.
    change (inject_Z 0) with 0%Q. qcase; try lra; reflexivity. }
  destruct (Qltb_spec x 0); [reflexivity | lra].
Qed.

(** ** Witnesses *)

Lemma format_thousands_minus_zero_witness : format_thousands (- (4 # 10)) = "-0".
Proof. apply format_thousands_minus_zero. lra. Defined.

End Format.
