(* ===== verification/App.v ===== *)
(** * The page (src/app.py, lines 68-95)

    One run of the Streamlit script: the page configuration, the title
    and the text input are always written; when the Analyze button was
    pressed, the ticker is normalized, [load_data] runs through the cache,
    [trade_plan] computes the plan and the page shows it with the news;
    an exception raised on the way is caught and shown as one error box
    with [str(e)].  The exceptions can only come from [load_data] and
    [trade_plan], before any widget of the branch is written, so the
    error box is the whole output of the branch.

    The run is a step on the cache state ([Cache.State]) at time [now],
    producing the list of widgets in the order the script writes them.
    The provider (whose answer depends on the time) and the feed parser
    are section variables; strings keep the UTF-8 bytes of the source's
    literals.  [run_all] is a session: Streamlit reruns the script on
    every interaction with the cache kept between runs.

    The theorems: with fewer than 200 daily rows the page shows pandas'
    [IndexError] message instead of the no-data hint, and the empty table
    is cached; any exception of [load_data] is shown alone and nothing is
    cached; the page depends on the input only through its normalized
    ticker; the layout of a successful analysis; over a session, the
    provider is called at most once per button press, for that run's
    normalized ticker; the cache entry of a ticker changes only in runs
    pressed for that ticker; and from any state, pressing the button late
    enough always fetches the provider's current table (liveness of the
    refresh). *)

From S2P Require Import Prelude PyStr Ticker Frame TradePlan Indicators Loader News Cache Format.
From stdpp Require Import gmap.
From Stdlib Require Import String ZArith.

Module App.
Import PyStr Frame TradePlan Loader News Cache Format.

Local Open Scope string_scope.

(** The Streamlit elements the script writes. *)
Inductive Widget :=
| PageConfig (page_title layout : string)
| Title (s : string)
| TextInput (label default : string)
| Button (label : string)
| Subheader (s : string)
| Metric (label value : string)
| SuccessBox (s : string)
| Caption (s : string)
| Write (s : string)
| Markdown (s : string)
| ErrorBox (s : string).

Definition PAGE_CONFIG_TITLE : string := "IDX Stock Advisor".
Definition PAGE_LAYOUT : string := "centered".
Definition PAGE_TITLE : string := "📈 IDX Stock Advisor (HP Friendly)".
Definition INPUT_LABEL : string := "Masukkan Kode Saham (contoh: BBNI, BBCA, TLKM)".
Definition INPUT_DEFAULT : string := "BBNI".
Definition BUTTON_LABEL : string := "Analyze".

(** Lines 68-71: the page configuration, the title and the text input,
    written on every run. *)
Definition header : list Widget :=
  [PageConfig PAGE_CONFIG_TITLE PAGE_LAYOUT; Title PAGE_TITLE; TextInput INPUT_LABEL INPUT_DEFAULT].

(** Lines 78-92: the plan and the news. *)
Definition render (t : string) (plan : Plan) (news : list NewsItem) : list Widget :=
  ([Subheader ("Hasil untuk " ++ t);
   Metric "Harga Terakhir" (format_thousands (close plan));
   SuccessBox (reco plan);
   Caption (why plan);
   Write "### 🎯 Trade Plan";
   Write ("**Entry:** " ++ format_thousands (entry plan));
   Write ("**Target 1:** " ++ format_thousands (tp1 plan));
   Write ("**Target 2:** " ++ format_thousands (tp2 plan));
   Write ("**Cutloss:** " ++ format_thousands (cutloss plan));
   Write ("Support/Resistance (60D): **" ++ format_thousands (support plan) ++ " / " ++
          format_thousands (resistance plan) ++ "**");
   Write "### 📰 News Terkini"] ++
  map (fun item => Markdown ("- [" ++ title item ++ "](" ++ link item ++ ")")) news)%list.

Section WithServices.
Context `{TA : Indicators}.
Variable history : Z -> string -> PyResult (option (list Yf.Row)).
Variable parse : string -> list News.Entry.

(** Lines 73-95: the body of [if st.button("Analyze")]. *)
Definition analyze (st : Cache.State) (now : Z) (kode : string) : Cache.State * list Widget :=
  let t := Ticker.normalize_ticker kode in
  let '(st', r) := cached_load_data history st now t in
  match r with
  | Err e => (st', [ErrorBox (str_exc e)])
  | Ok df =>
      match trade_plan df with
      | Err e => (st', [ErrorBox (str_exc e)])
      | Ok plan => (st', render t plan (get_news parse t 8))
      end
  end.

(** One run of the script: the header, the button (line 72, written on
    every run), and the branch when [pressed], the value
    [st.button("Analyze")] returns. *)
Definition run (st : Cache.State) (now : Z) (kode : string) (pressed : bool) : Cache.State * list Widget :=
  if pressed then
    let '(st', out) := analyze st now kode in (st', (header ++ Button BUTTON_LABEL :: out)%list)
  else (st, (header ++ [Button BUTTON_LABEL])%list).

(** Streamlit reruns the script on every interaction and keeps the cache
    between runs: a session is the sequence of runs [(now, kode, pressed)],
    each starting from the cache the previous one left. *)
Fixpoint run_all (st : Cache.State) (evs : list (Z * string * bool)) : Cache.State :=
  match evs with
  | [] => st
  | (now, kode, pressed) :: evs' => run_all (fst (run st now kode pressed)) evs'
  end.

(** The times of a session do not go back, starting from [t0]. *)
Fixpoint nondecreasing_from (t0 : Z) (evs : list (Z * string * bool)) : Prop :=
  match evs with
  | [] => True
  | (now, _, _) :: evs' => (t0 <= now)%Z /\ nondecreasing_from now evs'
  end.

(** The time of the last run of a session, [t0] for an empty one. *)
Definition last_time (t0 : Z) (evs : list (Z * string * bool)) : Z :=
  fold_left (fun _ ev => ev.1.1) evs t0.

End WithServices.

(** ** Lemmas *)

Section Lemmas.
Context `{TA : Indicators}.
Variable history : Z -> string -> PyResult (option (list Yf.Row)).
Variable parse : string -> list News.Entry.

(** The state after [analyze] is the state after the cached load. *)
Lemma analyze_state st now kode :
  fst (analyze history parse st now kode) =
  fst (cached_load_data history st now (Ticker.normalize_ticker kode)).
Proof.
  unfold analyze. destruct (cached_load_data _ _ _ _) as [st' [df|e]]; [| done].
  by destruct (trade_plan df).
Qed.

(** A run logs at most one provider call, and only when the button was
    pressed, for the normalized ticker. *)
Lemma run_calls st now kode pressed :
  calls (fst (run history parse st now kode pressed)) = calls st \/
  (pressed = true /\
   calls (fst (run history parse st now kode pressed)) = (calls st ++ [Ticker.normalize_ticker kode])%list).
Proof.
  unfold run. destruct pressed; [| by left].
  pose proof (analyze_state st now kode) as Hs.
  destruct (analyze history parse st now kode) as [st' out]. simpl in *. subst st'.
  destruct (cached_load_data_calls history st now (Ticker.normalize_ticker kode)); [by left | by right].
Qed.

(** A pressed run changes the state as the cached load does. *)
Lemma run_pressed_state st now kode :
  fst (run history parse st now kode true) =
  fst (cached_load_data history st now (Ticker.normalize_ticker kode)).
Proof.
  rewrite <- analyze_state. unfold run.
  by destruct (analyze history parse st now kode).
Qed.

(** A run keeps the cache's invariants. *)
Lemma run_inv st now kode pressed :
  coherent history st -> stored_before now st ->
  coherent history (fst (run history parse st now kode pressed)) /\
  stored_before now (fst (run history parse st now kode pressed)).
Proof.
  intros Hc Hb. destruct pressed; [| done].
  rewrite run_pressed_state. by apply cached_load_data_inv.
Qed.

(** A run changes the cache entry of its own ticker only, and only when
    the button was pressed. *)
Lemma run_store_other st now kode pressed u :
  (pressed = true -> u <> Ticker.normalize_ticker kode) ->
  store (fst (run history parse st now kode pressed)) !! u = store st !! u.
Proof.
  intros Hu. destruct pressed; [| done].
  rewrite run_pressed_state. apply cached_load_data_store_other. by apply Hu.
Qed.

Lemma length_render t plan news : List.length (render t plan news) = (11 + List.length news)%nat.
Proof. unfold render. by rewrite length_app, length_map. Qed.

End Lemmas.

(** ** Properties *)

Section Properties.
Context `{TA : Indicators}.
Variable history : Z -> string -> PyResult (option (list Yf.Row)).
Variable parse : string -> list News.Entry.

(** C34: a ticker with between 1 and 199 daily rows (a listing younger
    than 200 trading days) does not get the no-data hint: [load_data]
    returns an empty table, which is cached for the TTL, and [trade_plan]
    raises pandas' [IndexError], so the page shows the error box
    "single positional indexer is out-of-bounds". *)
Theorem analyze_short_history_index_error st now kode rows :
  history now (Ticker.normalize_ticker kode) = Ok (Some rows) -> rows <> [] ->
  (List.length rows < 200)%nat ->
  (forall e, store st !! Ticker.normalize_ticker kode = Some e -> is_fresh now e = false) ->
  snd (analyze history parse st now kode) = [ErrorBox ILOC_OUT_OF_BOUNDS] /\
  store (fst (analyze history parse st now kode)) !! Ticker.normalize_ticker kode =
    Some {| stored_at := now; value := [] |}.
Proof.
  intros Hh Hne Hlen Hmiss. unfold analyze.
  rewrite cached_load_data_miss by exact Hmiss. unfold cache_miss.
  rewrite (load_data_some_rows (history now) _ rows Hh Hne), drop_ge
    by (rewrite length_add_indicators; lia).
  simpl. by rewrite lookup_insert_eq.
Qed.

(** C35: an exception raised by [load_data] without a fresh cache entry
    (the provider's own, or the [ValueError] with the no-data hint) is
    the whole output of the button: one error box with [str(e)]; the
    call is logged and nothing is stored, so the next press asks the
    provider again. *)
Theorem analyze_load_error st now kode e :
  load_data (history now) (Ticker.normalize_ticker kode) = Err e ->
  (forall en, store st !! Ticker.normalize_ticker kode = Some en -> is_fresh now en = false) ->
  analyze history parse st now kode =
    ({| store := store st; calls := (calls st ++ [Ticker.normalize_ticker kode])%list |},
     [ErrorBox (str_exc e)]).
Proof.
  intros He Hmiss. unfold analyze.
  rewrite cached_load_data_miss by exact Hmiss. unfold cache_miss. by rewrite He.
Qed.

(** C36: the page depends on the input only through its normalized
    ticker: analyzing the normalized ticker, or the trimmed, upper-cased
    input, gives the same page and state as analyzing the raw input. *)
Theorem analyze_normalized_input st now kode :
  analyze history parse st now (Ticker.normalize_ticker kode) = analyze history parse st now kode /\
  analyze history parse st now (upper (strip kode)) = analyze history parse st now kode.
Proof.
  unfold analyze.
  rewrite (Ticker.normalize_ticker_normal _ (Ticker.normalize_ticker_is_normal kode)).
  by rewrite Ticker.normalize_ticker_upper_strip.
Qed.

(** C37: when the table loads and the plan is computed, the page is the
    plan's rendering: a subheader, the last-price metric, the
    recommendation, its reason, the six trade-plan lines, the news
    heading, and one link per news item, at most 8. *)
Theorem analyze_success_layout st now kode df plan :
  snd (cached_load_data history st now (Ticker.normalize_ticker kode)) = Ok df ->
  trade_plan df = Ok plan ->
  snd (analyze history parse st now kode) =
    render (Ticker.normalize_ticker kode) plan (get_news parse (Ticker.normalize_ticker kode) 8) /\
  List.length (snd (analyze history parse st now kode)) =
    (11 + Nat.min 8 (List.length (parse (news_url (news_query (Ticker.normalize_ticker kode))))))%nat.
Proof.
  intros Hl Hp. unfold analyze.
  destruct (cached_load_data _ _ _ _) as [st' r]. simpl in Hl. subst r. rewrite Hp.
  split; [done |]. cbn [snd]. rewrite length_render. unfold get_news.
  by rewrite length_map, length_py_slice_to_nonneg by lia.
Qed.

(** C38: over a whole session of reruns, the provider is called at most
    once per run in which the button was pressed, and only for the
    normalized ticker of such a run: typing in the text box never fetches
    data. *)
Theorem run_all_provider_calls st evs :
  exists extra, calls (run_all history parse st evs) = (calls st ++ extra)%list /\
    (List.length extra <= List.length (List.filter snd evs))%nat /\
    forall t, t ∈ extra -> exists now kode, (now, kode, true) ∈ evs /\ t = Ticker.normalize_ticker kode.
Proof.
  revert st. induction evs as [|[[now kode] pressed] evs IH]; intros st; simpl.
  - exists []. rewrite app_nil_r. split; [done | split; [apply Nat.le_0_l | intros t Ht; by apply elem_of_nil in Ht]].
  - destruct (IH (fst (run history parse st now kode pressed))) as (extra & Hc & Hlen & Hin).
    destruct (run_calls history parse st now kode pressed) as [Hr | [-> Hr]];
      rewrite Hr in Hc.
    + exists extra. split; [done | split].
      * destruct pressed; simpl; lia.
      * intros t Ht. destruct (Hin t Ht) as (n & k & Hk & ->). exists n, k. split; [by right | done].
    + exists (Ticker.normalize_ticker kode :: extra). rewrite <- app_assoc in Hc.
      split; [done | split; [simpl; lia |]].
      intros t [-> | Ht]%elem_of_cons; [exists now, kode; split; [left | done] |].
      destruct (Hin t Ht) as (n & k & Hk & ->). exists n, k. split; [by right | done].
Qed.

(** C5: requests for different tickers are independent (spec, section
    5): over any session, the cached entry of a ticker changes only in
    runs whose button press was for that ticker; presses for other
    tickers, and runs without a press, leave it as it was. *)
Theorem run_all_other_ticker_untouched st evs u :
  (forall now kode, (now, kode, true) ∈ evs -> Ticker.normalize_ticker kode <> u) ->
  store (run_all history parse st evs) !! u = store st !! u.
Proof.
  revert st. induction evs as [|[[now kode] pressed] evs IH]; intros st Hu; [done |]. simpl.
  rewrite IH by (intros n k Hk; apply (Hu n k); by right).
  apply run_store_other. intros -> ->. by apply (Hu now kode); [left |].
Qed.

(** C19: invariant of a session: when the runs' times do not go back, a
    session that starts from a cache whose entries are what [load_data]
    returned at their stored times, none after [t0], ends with a cache of
    which the same holds, none after the last run: every table the cache
    can serve is the provider's answer from its stored time. *)
Theorem run_all_invariant st t0 evs :
  coherent history st -> stored_before t0 st -> nondecreasing_from t0 evs ->
  coherent history (run_all history parse st evs) /\
  stored_before (last_time t0 evs) (run_all history parse st evs).
Proof.
  revert st t0. induction evs as [|[[now kode] pressed] evs IH]; intros st t0 Hc Hb Hev; [done |].
  destruct Hev as [Hle Hev]. simpl.
  destruct (run_inv history parse st now kode pressed Hc (stored_before_mono _ _ _ Hle Hb))
    as [Hc' Hb'].
  exact (IH _ now Hc' Hb' Hev).
Qed.

(** C6: liveness of the refresh: from any state, every press of the
    button from some time on calls the provider for the ticker and
    answers with the provider's current table, so a table on the page is
    never kept for more than [TTL] seconds after it was fetched. *)
Theorem run_eventually_refetches st kode :
  exists T, forall now, (T <= now)%Z ->
    calls (fst (run history parse st now kode true)) =
      (calls st ++ [Ticker.normalize_ticker kode])%list /\
    snd (cached_load_data history st now (Ticker.normalize_ticker kode)) =
      load_data (history now) (Ticker.normalize_ticker kode).
Proof.
  exists (match store st !! Ticker.normalize_ticker kode with
          | Some e => stored_at e + TTL | None => 0 end)%Z.
  intros now Hnow. rewrite run_pressed_state, cached_load_data_miss.
  - split; [apply cache_miss_calls | apply cache_miss_result].
  - intros e He. rewrite He in Hnow. unfold is_fresh. apply Z.ltb_ge. lia.
Qed.

End Properties.

(** ** Witnesses, with the TA-Lib instance, the synthetic histories and a
    three-item feed *)

Lemma analyze_short_history_index_error_witness :
  snd (analyze (fun _ => constant_provider (synthetic_rows 150)) (fun _ => sample_feed 3) empty_state 0 "bbni") =
    [ErrorBox ILOC_OUT_OF_BOUNDS] /\
  store (fst (analyze (fun _ => constant_provider (synthetic_rows 150)) (fun _ => sample_feed 3) empty_state 0 "bbni"))
    !! Ticker.normalize_ticker "bbni" = Some {| stored_at := 0; value := [] |}.
Proof.
  apply (analyze_short_history_index_error _ _ empty_state 0 "bbni" (synthetic_rows 150)).
  - reflexivity.
  - intros H. vm_compute in H. discriminate.
  - decide_concrete.
  - intros e H. vm_compute in H. discriminate.
Defined.

(** The provider's own exception and the no-data hint, each shown alone. *)
Lemma analyze_load_error_witness :
  analyze (fun _ _ => Err (OtherError "HTTP Error 503")) (fun _ => sample_feed 3) empty_state 0 "bbni" =
    ({| store := store empty_state;
        calls := (calls empty_state ++ [Ticker.normalize_ticker "bbni"])%list |},
     [ErrorBox (str_exc (OtherError "HTTP Error 503"))]) /\
  analyze (fun _ _ => Ok None) (fun _ => sample_feed 3) empty_state 0 "xyz" =
    ({| store := store empty_state;
        calls := (calls empty_state ++ [Ticker.normalize_ticker "xyz"])%list |},
     [ErrorBox (str_exc (ValueError NO_DATA_MSG))]).
Proof.
  split; apply analyze_load_error; [reflexivity | | reflexivity |];
    intros e H; vm_compute in H; discriminate.
Defined.

(** A session on the provider that changes at time 30: two presses for
    BBNI and one for BBCA. *)
Lemma run_all_invariant_witness :
  coherent moving_history
    (run_all moving_history (fun _ => sample_feed 3) empty_state
       [(0%Z, "bbni", true); (30%Z, "bbni", true); (90%Z, "bbca", true)]) /\
  stored_before (last_time 0 [(0%Z, "bbni", true); (30%Z, "bbni", true); (90%Z, "bbca", true)])
    (run_all moving_history (fun _ => sample_feed 3) empty_state
       [(0%Z, "bbni", true); (30%Z, "bbni", true); (90%Z, "bbca", true)]).
Proof.
  apply run_all_invariant; [intros t e H; vm_compute in H; discriminate
                           | intros t e H; vm_compute in H; discriminate | simpl; lia].
Defined.

(** From the state after fetching BBNI.JK: presses for BBCA and TLKM and
    a run without a press leave the BBNI.JK entry as it was. *)
Lemma run_all_other_ticker_untouched_witness :
  store (run_all sample_history (fun _ => sample_feed 3) after_fetch
           [(30%Z, "bbca", true); (40%Z, "bbni", false); (70%Z, "tlkm", true)])
    !! "BBNI.JK"%string = store after_fetch !! "BBNI.JK"%string.
Proof.
  apply run_all_other_ticker_untouched. intros n k Hk.
  rewrite !elem_of_cons, elem_of_nil in Hk.
  destruct Hk as [Hk | [Hk | [Hk | []]]]; simplify_eq; intros E; vm_compute in E; discriminate.
Defined.

Lemma analyze_success_layout_witness :
  exists df plan,
    snd (cached_load_data sample_history empty_state 0 (Ticker.normalize_ticker " bbni")) = Ok df /\
    trade_plan df = Ok plan /\
    snd (analyze sample_history (fun _ => sample_feed 3) empty_state 0 " bbni") =
      render (Ticker.normalize_ticker " bbni") plan
        (get_news (fun _ => sample_feed 3) (Ticker.normalize_ticker " bbni") 8) /\
    List.length (snd (analyze sample_history (fun _ => sample_feed 3) empty_state 0 " bbni")) =
      (11 + Nat.min 8 (List.length ((fun _ => sample_feed 3)
        (news_url (news_query (Ticker.normalize_ticker " bbni"))))))%nat.
Proof.
  eexists _, _. split; [vm_compute; reflexivity |]. split; [vm_compute; reflexivity |].
  eapply analyze_success_layout; vm_compute; reflexivity.
Defined.

End App.
